(** * PocketSDK: the Pocket API client of [pocket.go]

    A shallow embedding of the Go package [pocket] and the properties of
    its four public operations.  Go strings are byte strings and are
    modelled by [string]; Go maps ([url.Values], [http.Header]) by
    [gmap string (list string)]; a Go [error] that is [nil] by [None].
    Methods with the pointer receiver [*Client] run in a state monad whose
    state holds the allocated [Client] objects, the requests handed to an
    [http.Client] so far, and the state of the world behind the HTTP
    clients. *)

From Stdlib Require Import ZArith Ascii String List.
From stdpp Require Import base option gmap strings list fin_maps.

Local Open Scope string_scope.
Local Open Scope Z_scope.

(** ** Go values shared by the whole package *)

(** The [error] values the package builds or passes on: [errors.New],
    [errors.Join] of two non-nil errors, [url.EscapeError], and the
    [*url.Error] in which [http.Client.Do] wraps every failure, with the
    operation ([Post]), the address and the cause. *)
Inductive error : Type :=
| errorsNew (text : string)
| errorsJoin (first second : error)
| EscapeError (fragment : string)
| urlError (op address : string) (cause : error).

(** ** package [strings] *)
Module strings.

(** [strings.Join(elems, sep)]. *)
Fixpoint Join (elems : list string) (sep : string) : string :=
  match elems with
  | [] => ""
  | [x] => x
  | x :: rest => x +:+ sep +:+ Join rest sep
  end.

(** [strings.Contains(s, string(c))] for a one-byte substring. *)
Fixpoint ContainsByte (s : string) (c : ascii) : bool :=
  match s with
  | EmptyString => false
  | String x rest => if Ascii.eqb x c then true else ContainsByte rest c
  end.

(** [strings.Cut(s, string(c))]: the text before and after the first
    [c]; when [c] does not occur, all of [s] and the empty string. *)
Fixpoint Cut (s : string) (c : ascii) : string * string * bool :=
  match s with
  | EmptyString => ("", "", false)
  | String x rest =>
      if Ascii.eqb x c then ("", rest, true)
      else let '(before, after, found) := Cut rest c in
           (String x before, after, found)
  end.

(** [strings.Split(s, string(c))]: the pieces between occurrences of
    [c]; never the empty list. *)
Fixpoint Split (s : string) (c : ascii) : list string :=
  match s with
  | EmptyString => [""]
  | String x rest =>
      if Ascii.eqb x c then "" :: Split rest c
      else match Split rest c with
           | piece :: pieces => String x piece :: pieces
           | [] => [String x ""]
           end
  end.

End strings.

(** ** package [fmt] *)
Module fmt.

(** The operands left over when the format ends. *)
Fixpoint extra (args : list string) : string :=
  match args with
  | [] => ""
  | [a] => "string=" +:+ a
  | a :: rest => "string=" +:+ a +:+ ", " +:+ extra rest
  end.

(** What [Sprintf] prints at the end of the format. *)
Definition trailer (args : list string) : string :=
  match args with
  | [] => ""
  | _ => "%!(EXTRA " +:+ extra args +:+ ")"
  end.

(** [fmt.Sprintf(format, args...)] for string operands and the verbs the
    package uses, [%s] and [%v] (both print a string operand as it is),
    and [%%].  Flags, widths and other verbs do not occur in the
    package's formats; a verb other than these is printed the way [fmt]
    reports a bad verb. *)
Fixpoint Sprintf (format : string) (args : list string) : string :=
  match format with
  | EmptyString => trailer args
  | String "%" EmptyString => "%!(NOVERB)" +:+ trailer args
  | String "%" (String verb rest) =>
      if Ascii.eqb verb "%" then String "%" (Sprintf rest args)
      else
        match args with
        | [] => "%!" +:+ String verb "(MISSING)" +:+ Sprintf rest []
        | a :: args' =>
            if Ascii.eqb verb "s" || Ascii.eqb verb "v"
            then a +:+ Sprintf rest args'
            else "%!" +:+ String verb "(string=" +:+ a +:+ ")"
                 +:+ Sprintf rest args'
        end
  | String c rest => String c (Sprintf rest args)
  end.

End fmt.

(** ** package [net/url] *)
Module url.

(** [url.Values], a [map[string][]string]. *)
Abbreviation Values := (gmap string (list string)).

Definition ishex (c : ascii) : bool :=
  let n := nat_of_ascii c in
  ((48 <=? n) && (n <=? 57) || (97 <=? n) && (n <=? 102)
   || (65 <=? n) && (n <=? 70))%nat.

Definition unhex (c : ascii) : nat :=
  let n := nat_of_ascii c in
  (if (48 <=? n) && (n <=? 57) then n - 48
   else if (97 <=? n) && (n <=? 102) then n - 97 + 10
   else if (65 <=? n) && (n <=? 70) then n - 65 + 10
   else 0)%nat.

(** The at most three bytes reported by an [EscapeError]. *)
Definition clip3 (s : string) : string := String.substring 0 3 s.

(** [url.QueryUnescape]: [%XY] becomes the byte with hexadecimal code
    [XY], [+] becomes a space, and a [%] that is not followed by two
    hexadecimal digits is an [EscapeError] carrying the text at that
    place.  The library checks the escapes in a first pass and decodes
    in a second one; the two passes meet the same first bad escape. *)
Fixpoint QueryUnescape (s : string) : string + error :=
  match s with
  | EmptyString => inl ""
  | String "%" rest =>
      match rest with
      | String a (String b rest') =>
          if ishex a && ishex b then
            match QueryUnescape rest' with
            | inl t => inl (String (ascii_of_nat (unhex a * 16 + unhex b)) t)
            | inr e => inr e
            end
          else inr (EscapeError (clip3 s))
      | _ => inr (EscapeError (clip3 s))
      end
  | String "+" rest =>
      match QueryUnescape rest with
      | inl t => inl (String " " t)
      | inr e => inr e
      end
  | String c rest =>
      match QueryUnescape rest with
      | inl t => inl (String c t)
      | inr e => inr e
      end
  end.

(** [m[key] = append(m[key], value)]. *)
Definition add (m : Values) (key value : string) : Values :=
  <[key := (default [] (m !! key) ++ [value])%list]> m.

(** The loop of [parseQuery] over the [&]-separated settings of the
    query.  The library cuts the next setting off the query until the
    query is empty, which visits the pieces of [strings.Split(query, "&")]
    in order (the piece left of an empty rest is empty and skipped).
    [err] is the error recorded so far: a [;] overwrites it, a bad escape
    is recorded only when none is; the faulty setting is dropped. *)
Fixpoint parseQuery (m : Values) (settings : list string)
    (err : option error) : Values * option error :=
  match settings with
  | [] => (m, err)
  | key :: rest =>
      if strings.ContainsByte key ";" then
        parseQuery m rest
          (Some (errorsNew "invalid semicolon separator in query"))
      else if String.eqb key "" then parseQuery m rest err
      else
        let '(key, value, _) := strings.Cut key "=" in
        match QueryUnescape key with
        | inr err1 =>
            parseQuery m rest (if err is None then Some err1 else err)
        | inl key =>
            match QueryUnescape value with
            | inr err1 =>
                parseQuery m rest (if err is None then Some err1 else err)
            | inl value => parseQuery (add m key value) rest err
            end
        end
  end.

(** [url.ParseQuery(query)]: the values parsed so far come back even
    with an error. *)
Definition ParseQuery (query : string) : Values * option error :=
  parseQuery ∅ (strings.Split query "&") None.

(** [Values.Get(key)]: the first value of [key], the empty string when
    there is none. *)
Definition Get (v : Values) (key : string) : string :=
  match v !! key with
  | Some (first :: _) => first
  | _ => ""
  end.

End url.

(** ** package [time] *)
Module time.
(** A [time.Duration] counts nanoseconds. *)
Definition Nanosecond : Z := 1.
Definition Second : Z := 1000000000 * Nanosecond.
End time.

(** ** package [context] *)
Module context.
(** What a transport can observe of a non-nil [context.Context]. *)
Record t := { Done : bool; Deadline : option Z }.
(** The interface value [context.Context]; [None] is the nil interface. *)
Abbreviation Context := (option t).
Definition Background : Context := Some {| Done := false; Deadline := None |}.
End context.

(** ** package [io] *)
Module io.
(** A response body: the bytes a reader delivers and the error, if any,
    that ends the reading before the end of the data. *)
Record ReadCloser := { data : string; fault : option error }.

(** [io.ReadAll]: what was read and the error that stopped it. *)
Definition ReadAll (r : ReadCloser) : string * option error :=
  (data r, fault r).

(** [io.NopCloser(strings.NewReader(s))]. *)
Definition NopCloser (s : string) : ReadCloser :=
  {| data := s; fault := None |}.
End io.

(** ** package [net/http] *)
Module http.

Definition MethodPost : string := "POST".
Definition StatusOK : Z := 200.

(** [http.Header], a [map[string][]string]. *)
Abbreviation Header := (gmap string (list string)).

(** The bytes allowed in a header field name (RFC 7230 [token]). *)
Definition validHeaderFieldByte (c : ascii) : bool :=
  let n := nat_of_ascii c in
  ((48 <=? n) && (n <=? 57) || (97 <=? n) && (n <=? 122)
   || (65 <=? n) && (n <=? 90))%nat
  || strings.ContainsByte "!#$%&'*+-.^_`|~" c.

Fixpoint allValid (s : string) : bool :=
  match s with
  | EmptyString => true
  | String c rest => validHeaderFieldByte c && allValid rest
  end.

Definition toUpper (c : ascii) : ascii :=
  let n := nat_of_ascii c in
  if ((97 <=? n) && (n <=? 122))%nat then ascii_of_nat (n - 32) else c.

Definition toLower (c : ascii) : ascii :=
  let n := nat_of_ascii c in
  if ((65 <=? n) && (n <=? 90))%nat then ascii_of_nat (n + 32) else c.

(** First letter and every letter after a dash in upper case, the other
    letters in lower case. *)
Fixpoint canonical (upper : bool) (s : string) : string :=
  match s with
  | EmptyString => ""
  | String c rest =>
      let c' := if upper then toUpper c else toLower c in
      String c' (canonical (Ascii.eqb c' "-") rest)
  end.

(** [textproto.CanonicalMIMEHeaderKey]: a key with a byte that is not
    allowed in a field name is left as it is. *)
Definition CanonicalMIMEHeaderKey (s : string) : string :=
  if allValid s then canonical true s else s.

(** [Header.Get(key)]: the first value stored under the canonical form
    of [key], the empty string when there is none. *)
Definition Get (h : Header) (key : string) : string :=
  match h !! CanonicalMIMEHeaderKey key with
  | Some (first :: _) => first
  | _ => ""
  end.

(** [Header.Add(key, value)]. *)
Definition Add (h : Header) (key value : string) : Header :=
  let key := CanonicalMIMEHeaderKey key in
  <[key := (default [] (h !! key) ++ [value])%list]> h.

Record Request := {
  Method : string;
  URL : string;
  ReqHeader : Header;
  ReqBody : string;
  ctx : context.t
}.

Record Response := {
  StatusCode : Z;
  RespHeader : Header;
  Body : io.ReadCloser
}.

(** [http.NewRequestWithContext(ctx, method, url, body)].  The package
    calls it with the method [POST] and the constant [host] followed by
    one of three constant endpoints, which are a valid method and URLs
    that parse; what is left to fail is a nil context. *)
Definition NewRequestWithContext (ctx : context.Context)
    (method url : string) (body : string) : Request + error :=
  match ctx with
  | None => inr (errorsNew "net/http: nil Context")
  | Some ctx =>
      inl {| Method := method; URL := url; ReqHeader := ∅;
             ReqBody := body; ctx := ctx |}
  end.

(** [req.Header.Add(key, value)] on a request. *)
Definition withHeader (req : Request) (key value : string) : Request :=
  {| Method := Method req; URL := URL req;
     ReqHeader := Add (ReqHeader req) key value;
     ReqBody := ReqBody req; ctx := ctx req |}.

(** [http.RoundTripper] over a world [W]: the answer to a request, a
    response or a transport error (connection, timeout, cancellation),
    and the world after the exchange. *)
Definition RoundTripper (W : Type) : Type :=
  Request → W → (Response + error) * W.

(** The fields of [http.Client] the package and its tests set; a nil
    [Transport] stands for [http.DefaultTransport]. *)
Record Client (W : Type) := {
  Timeout : Z;
  Transport : option (RoundTripper W)
}.
Arguments Timeout {W} _.
Arguments Transport {W} _.

End http.

(** * package [pocket] *)

(** ** Constants *)
Definition host : string := "https://getpocket.com/v3".
Definition authorizeURL : string :=
  "https://getpocket.com/auth/authorize?request_token=%s&redirect_uri=%s".
Definition endpointRequestToken : string := "/oauth/request".
Definition endpointAuthorize : string := "/oauth/authorize".
Definition endpointAdd : string := "/add".
Definition xErrorHeader : string := "X-Error".
Definition defaultTimeout : Z := 5 * time.Second.

(** ** Wire types *)
Module requestTokenRequest.
Record t := { ConsumerKey : string; RedirectURI : string }.
End requestTokenRequest.

Module accessTokenRequest.
Record t := { ConsumerKey : string; Code : string }.
End accessTokenRequest.

Module AuthorizeResponse.
Record t := { AccessToken : string; Username : string }.
End AuthorizeResponse.

Module addRequest.
Record t := {
  Url : string;
  Title : string;
  Tags : string;
  TweetId : Z;
  ConsumerKey : string;
  AccessToken : string
}.
End addRequest.

Module AddInput.
Record t := {
  URL : string;
  Title : string;
  Tags : list string;
  AccessToken : string
}.

Definition validate (i : t) : option error :=
  if decide (URL i = "") then
    Some (errorsNew "required URL values is empty")
  else if decide (AccessToken i = "") then
    Some (errorsNew "access token is empty")
  else None.

(** [TweetId] is not set and keeps Go's zero value. *)
Definition generateRequest (i : t) (consumerKey : string) : addRequest.t :=
  {| addRequest.Url := URL i;
     addRequest.Tags := strings.Join (Tags i) ",";
     addRequest.Title := Title i;
     addRequest.TweetId := 0;
     addRequest.AccessToken := AccessToken i;
     addRequest.ConsumerKey := consumerKey |}.
End AddInput.

(** The values [doHTTP] receives in its [body interface{}] parameter. *)
Variant body : Type :=
| requestTokenBody (inp : requestTokenRequest.t)
| accessTokenBody (inp : accessTokenRequest.t)
| addBody (inp : addRequest.t).

(** ** The surroundings of the package

    [json.Marshal] is taken as a parameter: none of the properties below
    depends on the bytes of the encoding.  So is [http.Client.Do], as
    [ClientDo]: the library sends the request through the client's
    transport, follows redirects, applies the client's [Timeout] and wraps
    a failure in a [*url.Error]; all that the package sees of it is the
    response or the error it returns (with an error the package looks at
    nothing else).  [World] is the state of everything
    behind an [http.Client] (its transport, the network, the remote
    service, a test stub's counters), which a call of [Do] may change. *)
Class Platform := {
  World : Type;
  Marshal : body → string + error;
  ClientDo : http.Client World → http.Request → World
             → (http.Response + error) * World
}.

(** A pointer; [None] is [nil]. *)
Abbreviation loc := positive.
Abbreviation ptr := (option loc).

(** A call returns or panics. *)
Variant outcome (A : Type) : Type :=
| Return (a : A)
| Panic (reason : string).
Arguments Return {A} a.
Arguments Panic {A} reason.

Section Pocket.
Context `{Platform}.

Record Client := {
  client : option (http.Client World);   (* [*http.Client] *)
  consumerKey : string
}.

(** The state a call runs in: the [Client] objects allocated so far with
    their addresses, the requests handed to [http.Client.Do] so far (oldest
    first), and the world behind the HTTP clients. *)
Record State := {
  clients : gmap loc Client;
  sent : list http.Request;
  world : World
}.

Definition M (A : Type) : Type := State → outcome A * State.

Definition ret {A} (a : A) : M A := fun s => (Return a, s).

Definition bind {A B} (m : M A) (k : A → M B) : M B :=
  fun s =>
    match m s with
    | (Return a, s') => k a s'
    | (Panic reason, s') => (Panic reason, s')
    end.

Definition nilDereference : string :=
  "runtime error: invalid memory address or nil pointer dereference".

(** [c] points to the object [cl]. *)
Definition holds (c : ptr) (s : State) (cl : Client) : Prop :=
  c ≫= (fun l => clients s !! l) = Some cl.

(** Reading through a [*Client]; a nil pointer, like an address that
    holds no object, panics. *)
Definition deref (c : ptr) : M Client :=
  fun s =>
    match c ≫= (fun l => clients s !! l) with
    | Some cl => (Return cl, s)
    | None => (Panic nilDereference, s)
  end.

(** [&Client{...}]: a new object at an address not in use. *)
Definition alloc (cl : Client) : M ptr :=
  fun s =>
    let l := fresh (dom (clients s)) in
    (Return (Some l),
     {| clients := <[l := cl]> (clients s);
        sent := sent s; world := world s |}).

(** [hc.Do(req)] through the pointer [hc]: a nil [*http.Client] panics;
    otherwise the request is handed to the client and the library
    decides the answer and what becomes of the world. *)
Definition Do (hc : option (http.Client World)) (req : http.Request)
    : M (http.Response + error) :=
  fun s =>
    match hc with
    | None => (Panic nilDereference, s)
    | Some hc =>
        let '(answer, w) := ClientDo hc req (world s) in
        (Return answer,
         {| clients := clients s; sent := sent s ++ [req]; world := w |})
    end.

Local Notation "'let*' x ':=' m 'in' k" := (bind m (fun x => k))
  (at level 10, x name, m at level 100, k at level 200).

(** ** The shared HTTP exchange

    [defer resp.Body.Close()] releases the body when [doHTTP] returns and
    has no part in what it returns. *)
Definition doHTTP (c : ptr) (ctx : context.Context) (endpoint : string)
    (body : body) : M (url.Values * option error) :=
  match Marshal body with
  | inr err =>
      ret (∅, Some (errorsJoin err (errorsNew "Failed to marshal body")))
  | inl b =>
      match http.NewRequestWithContext ctx http.MethodPost
              (host +:+ endpoint) b with
      | inr err =>
          ret (∅, Some (errorsJoin err
                          (errorsNew "Failed to create request")))
      | inl req =>
          let req :=
            http.withHeader req "Content-Type"
              "application/json; charset=UTF8" in
          let* cl := deref c in
          let* answer := Do (client cl) req in
          match answer with
          | inr err =>
              ret (∅, Some (errorsJoin err
                              (errorsNew "Failed to send http request...")))
          | inl resp =>
              if decide (http.StatusCode resp ≠ http.StatusOK) then
                let err :=
                  fmt.Sprintf "API Error : %v"
                    [http.Get (http.RespHeader resp) xErrorHeader] in
                ret (∅, Some (errorsNew err))
              else
                match io.ReadAll (http.Body resp) with
                | (_, Some err) =>
                    ret (∅, Some (errorsJoin err
                                    (errorsNew "Failed read response")))
                | (respB, None) =>
                    match url.ParseQuery respB with
                    | (_, Some err) =>
                        ret (∅, Some (errorsJoin err
                               (errorsNew "Failed to parse response values")))
                    | (values, None) => ret (values, None)
                    end
                end
          end
      end
  end.

(** ** Construction *)
Definition NewClient (consumerKey : string) : M (ptr * option error) :=
  if decide (consumerKey = "") then
    ret (None, Some (errorsNew "Consumer key is empty"))
  else
    let* c :=
      alloc {| client := Some {| http.Timeout := defaultTimeout;
                                 http.Transport := None |};
               consumerKey := consumerKey |} in
    ret (c, None).

(** ** The public operations *)
Definition GetRequestToken (c : ptr) (ctx : context.Context)
    (redirectUri : string) : M (string * option error) :=
  if decide (redirectUri = "") then
    ret ("", Some (errorsNew "ReditectUri is empty"))
  else
    let* cl := deref c in
    let inp :=
      {| requestTokenRequest.ConsumerKey := consumerKey cl;
         requestTokenRequest.RedirectURI := redirectUri |} in
    let* result :=
      doHTTP c ctx endpointRequestToken (requestTokenBody inp) in
    let '(values, err) := result in
    match err with
    | Some err => ret ("", Some err)
    | None =>
        let requestToken := url.Get values "code" in
        if decide (requestToken = "") then
          ret ("", Some (errorsNew "Empty request token in API response"))
        else ret (requestToken, None)
    end.

Definition GetAuthorizationURL (c : ptr) (ctx : context.Context)
    (requestToken redirectUrl : string) : M (string * option error) :=
  if decide (requestToken = "") then
    ret ("", Some (errorsNew "RequestToken is empty"))
  else if decide (redirectUrl = "") then
    ret ("", Some (errorsNew "RedirectUrl is empty"))
  else ret (fmt.Sprintf authorizeURL [requestToken; redirectUrl], None).

Definition Add (c : ptr) (ctx : context.Context) (input : AddInput.t)
    : M (option error) :=
  match AddInput.validate input with
  | Some err => ret (Some err)
  | None =>
      let* cl := deref c in
      let inp := AddInput.generateRequest input (consumerKey cl) in
      let* result := doHTTP c ctx endpointAdd (addBody inp) in
      let '(_, err) := result in
      ret err
  end.

Definition GetAccessToken (c : ptr) (ctx : context.Context)
    (requestToken : string) : M (string * option error) :=
  if decide (requestToken = "") then
    ret ("", Some (errorsNew "RequestToken is empty"))
  else
    let* cl := deref c in
    let inp :=
      {| accessTokenRequest.ConsumerKey := consumerKey cl;
         accessTokenRequest.Code := requestToken |} in
    let* result :=
      doHTTP c ctx endpointAuthorize (accessTokenBody inp) in
    let '(values, err) := result in
    match err with
    | Some err => ret ("", Some err)
    | None =>
        let accessToken := url.Get values "code" in
        if decide (accessToken = "") then
          ret ("", Some (errorsNew "Empty access token in API response"))
        else ret (accessToken, None)
    end.

(** ** Reading an exchange *)

(** [answered c ctx endpoint b s resp s']: in state [s] the exchange of
    [doHTTP c ctx endpoint b] reaches the [http.Client] of the client at
    [c], whose [Do] returns the response [resp] and leaves state [s']. *)
Definition answered (c : ptr) (ctx : context.Context) (endpoint : string)
    (b : body) (s : State) (resp : http.Response) (s' : State) : Prop :=
  ∃ cl payload req,
    holds c s cl
    ∧ Marshal b = inl payload
    ∧ http.NewRequestWithContext ctx http.MethodPost (host +:+ endpoint)
        payload = inl req
    ∧ Do (client cl)
        (http.withHeader req "Content-Type" "application/json; charset=UTF8")
        s = (Return (inl resp), s').

(** [dropped c ctx endpoint b s err s']: the exchange reaches the
    [http.Client], whose [Do] returns the error [err] instead of a
    response. *)
Definition dropped (c : ptr) (ctx : context.Context) (endpoint : string)
    (b : body) (s : State) (err : error) (s' : State) : Prop :=
  ∃ cl payload req,
    holds c s cl
    ∧ Marshal b = inl payload
    ∧ http.NewRequestWithContext ctx http.MethodPost (host +:+ endpoint)
        payload = inl req
    ∧ Do (client cl)
        (http.withHeader req "Content-Type" "application/json; charset=UTF8")
        s = (Return (inr err), s').

(** From [s] to [s'] nothing happened, or exactly one request was handed
    to an [http.Client] and nothing else changed but the world behind
    it. *)
Definition sentAtMostOne (s s' : State) : Prop :=
  s' = s
  ∨ ∃ req w,
      s' = {| clients := clients s; sent := sent s ++ [req]; world := w |}.

End Pocket.

(** A text without the bytes that mean something in a query string:
    [%] and [+] to [url.QueryUnescape], [&] and [;] to [url.ParseQuery]. *)
Definition literal (s : string) : bool :=
  negb (strings.ContainsByte s "%") && negb (strings.ContainsByte s "+")
  && negb (strings.ContainsByte s "&") && negb (strings.ContainsByte s ";").

(** ** Fixtures: a platform without network and the stub of the tests *)

Definition quote : string := String (ascii_of_nat 34) "".

Definition field (name value : string) : string :=
  quote +:+ name +:+ quote +:+ ":" +:+ quote +:+ value +:+ quote.

(** An encoding for the examples: the JSON object of each wire type, with
    the field names of its struct tags; right for strings that need no
    escaping. *)
Definition plainJSON (b : body) : string :=
  match b with
  | requestTokenBody r =>
      "{" +:+ field "consumer_key" (requestTokenRequest.ConsumerKey r)
      +:+ "," +:+ field "redirectUri" (requestTokenRequest.RedirectURI r)
      +:+ "}"
  | accessTokenBody r =>
      "{" +:+ field "consumer_key" (accessTokenRequest.ConsumerKey r)
      +:+ "," +:+ field "code" (accessTokenRequest.Code r) +:+ "}"
  | addBody r =>
      "{" +:+ field "url" (addRequest.Url r)
      +:+ "," +:+ field "title" (addRequest.Title r)
      +:+ "," +:+ field "tags" (addRequest.Tags r)
      +:+ "," +:+ quote +:+ "tweet_id" +:+ quote +:+ ":0"
      +:+ "," +:+ field "consumer_key" (addRequest.ConsumerKey r)
      +:+ "," +:+ field "access_token" (addRequest.AccessToken r)
      +:+ "}"
  end.

(** The default transport of the examples has no network to reach. *)
Definition unreachable : http.RoundTripper nat :=
  fun _ n => (inr (errorsNew "dial tcp: network is unreachable"), S n).

(** The operation named in a [*url.Error]: [Post] for the method [POST]. *)
Fixpoint lowered (s : string) : string :=
  match s with
  | EmptyString => ""
  | String c rest => String (http.toLower c) (lowered rest)
  end.

Definition urlErrorOp (method : string) : string :=
  match method with
  | EmptyString => "Get"
  | String c rest => String c (lowered rest)
  end.

(** The statuses [http.Client.Do] follows when the response names a
    [Location], and those among them after which the follow-up is a [GET]
    without a body. *)
Definition redirects (status : Z) : bool :=
  (status =? 301) || (status =? 302) || (status =? 303)
  || (status =? 307) || (status =? 308).

Definition dropsBody (status : Z) : bool :=
  (status =? 301) || (status =? 302) || (status =? 303).

(** The address of a [Location] seen from the address [base] of the
    request before: an address with a scheme as it stands, a path from
    the root under the scheme and host of [base], any other under the
    directory of [base].  (The library also cleans dot segments and
    validates the text; the examples need neither.) *)
Fixpoint upToLastSlash (s : string) : string :=
  match s with
  | EmptyString => ""
  | String c rest =>
      if strings.ContainsByte rest "/" then String c (upToLastSlash rest)
      else if Ascii.eqb c "/" then "/" else ""
  end.

Definition originOf (base : string) : string :=
  match String.index 0 "://" base with
  | None => ""
  | Some i =>
      match String.index (i + 3) "/" base with
      | None => base
      | Some j => String.substring 0 j base
      end
  end.

Definition resolve (base location : string) : string :=
  match String.index 0 "://" location with
  | Some _ => location
  | None =>
      if String.prefix "/" location then originOf base +:+ location
      else upToLastSlash base +:+ location
  end.

(** A response [http.Client.Do] returns as it is: no redirect, or one
    that names no [Location]. *)
Definition final (resp : http.Response) : bool :=
  negb (redirects (http.StatusCode resp)
        && negb (String.eqb (http.Get (http.RespHeader resp) "Location") "")).

(** The request [http.Client.Do] makes to follow a redirect of [req]
    answered with [status] and [location]; [first] is the request [Do]
    was called with, whose headers are copied. *)
Definition followUp (first req : http.Request) (status : Z)
    (location : string) : http.Request :=
  let method :=
    if dropsBody status
    then if String.eqb (http.Method req) "GET"
            || String.eqb (http.Method req) "HEAD"
         then http.Method req else "GET"
    else http.Method req in
  {| http.Method := method;
     http.URL := resolve (http.URL req) location;
     http.ReqHeader :=
       <["Referer" := [http.URL req]]> (http.ReqHeader first);
     http.ReqBody := if dropsBody status then "" else http.ReqBody req;
     http.ctx := http.ctx first |}.

(** The round trips of one call of [Do]: a transport's error ends the
    call, wrapped in a [*url.Error] with the operation of the first
    request and the address of the failed one; a response that is no
    redirect, or names no [Location], is returned; a redirect is followed
    while [hops] follow-ups are left and refused after that. *)
Fixpoint roundTrips (hops : nat) (transport : http.RoundTripper nat)
    (first req : http.Request) (n : nat) : (http.Response + error) * nat :=
  match transport req n with
  | (inr err, n') =>
      (inr (urlError (urlErrorOp (http.Method first)) (http.URL req) err),
       n')
  | (inl resp, n') =>
      let location := http.Get (http.RespHeader resp) "Location" in
      if negb (final resp) then
        match hops with
        | O =>
            (inr (urlError (urlErrorOp (http.Method first)) location
                    (errorsNew "stopped after 10 redirects")), n')
        | S hops' =>
            roundTrips hops' transport first
              (followUp first req (http.StatusCode resp) location) n'
        end
      else (inl resp, n')
  end.

(** The [Do] of the examples: [http.Client.Do] for a client without a
    redirect policy, cookie jar or timeout of its own, as the clients of
    the examples are, over a world that has no clock: at most ten round
    trips through the client's transport. *)
Definition stubDo (hc : http.Client nat) (req : http.Request) (n : nat)
    : (http.Response + error) * nat :=
  roundTrips 9 (default unreachable (http.Transport hc)) req req n.

(** The world counts the round trips through a transport. *)
Definition stubPlatform : Platform :=
  {| World := nat;
     Marshal := fun b => inl (plainJSON b);
     ClientDo := stubDo |}.

(** The [newClient] of [pocket_test.go]: a [Client] with the consumer key
    [key] whose transport answers every request with the given status,
    headers and body content. *)
Definition stubResponse (statusCode : Z) (header : http.Header)
    (content : string) : http.Response :=
  {| http.StatusCode := statusCode; http.RespHeader := header;
     http.Body := io.NopCloser content |}.

Definition stubHTTPClient (statusCode : Z) (header : http.Header)
    (content : string) : http.Client (@World stubPlatform) :=
  {| http.Timeout := 0;
     http.Transport :=
       Some (fun _ (n : @World stubPlatform) =>
               (inl (stubResponse statusCode header content), S n)) |}.

Definition newClient (statusCode : Z) (header : http.Header)
    (content : string) : @Client stubPlatform :=
  {| client := Some (stubHTTPClient statusCode header content);
     consumerKey := "key" |}.

(** A state with that client at address 1 and nothing sent yet. *)
Definition stubState (statusCode : Z) (header : http.Header)
    (content : string) : @State stubPlatform :=
  @Build_State stubPlatform
    {[1%positive := newClient statusCode header content]} [] 0%nat.

Definition stubClient : ptr := Some 1%positive.

(** The request the stub receives from [doHTTP] for a wire value. *)
Definition posted (endpoint : string) (b : body) : http.Request :=
  {| http.Method := "POST";
     http.URL := "https://getpocket.com/v3" +:+ endpoint;
     http.ReqHeader :=
       {["Content-Type" := ["application/json; charset=UTF8"]]};
     http.ReqBody := plainJSON b;
     http.ctx := {| context.Done := false; context.Deadline := None |} |}.

(** The state after the stub has answered one request. *)
Definition stubAnswered (statusCode : Z) (header : http.Header)
    (content : string) (request : http.Request) : @State stubPlatform :=
  @Build_State stubPlatform
    {[1%positive := newClient statusCode header content]} [request] 1%nat.

(** The inputs of the tests. *)
Definition requestTokenOf (redirectUri : string) : body :=
  requestTokenBody
    {| requestTokenRequest.ConsumerKey := "key";
       requestTokenRequest.RedirectURI := redirectUri |}.

Definition accessTokenOf (requestToken : string) : body :=
  accessTokenBody
    {| accessTokenRequest.ConsumerKey := "key";
       accessTokenRequest.Code := requestToken |}.

Definition someInput : AddInput.t :=
  {| AddInput.URL := "some_url.com";
     AddInput.Title := "some_title";
     AddInput.Tags := ["some_tag_1"; "some_tag_2"];
     AddInput.AccessToken := "access-to-ken" |}.

Definition addOf (input : AddInput.t) : body :=
  addBody (AddInput.generateRequest input "key").

(** The headers of a refusal by the service: the reason is in [X-Error]. *)
Definition refusal : http.Header := {["X-Error" := ["Missing consumer key."]]}.

(** A client of the stub platform with a transport of its own, the state
    that holds it at address 1, and that state after one exchange. *)
Definition clientWith (transport : http.RoundTripper (@World stubPlatform))
    : @Client stubPlatform :=
  {| client := Some {| http.Timeout := 0; http.Transport := Some transport |};
     consumerKey := "key" |}.

Definition stateWith (cl : @Client stubPlatform) : @State stubPlatform :=
  @Build_State stubPlatform {[1%positive := cl]} [] 0%nat.

Definition exchangedWith (cl : @Client stubPlatform)
    (request : http.Request) : @State stubPlatform :=
  @Build_State stubPlatform {[1%positive := cl]} [request] 1%nat.

(** A transport that cannot connect. *)
Definition refusedConnection : error :=
  errorsNew "dial tcp: connection refused".

Definition offline : http.RoundTripper (@World stubPlatform) :=
  fun _ n => (inr refusedConnection, S n).

(** A transport whose answer has status 200 and a body that breaks off
    while it is read. *)
Definition unexpectedEOF : error := errorsNew "unexpected EOF".

Definition brokenBody : http.Response :=
  {| http.StatusCode := 200; http.RespHeader := ∅;
     http.Body := {| io.data := "code=qwe"; io.fault := Some unexpectedEOF |} |}.

Definition breaking : http.RoundTripper (@World stubPlatform) :=
  fun _ n => (inl brokenBody, S n).

(** A transport that answers the first request with a redirect to
    [/next] and every later one with a token. *)
Definition movedThenToken : http.RoundTripper (@World stubPlatform) :=
  fun _ n =>
    match n with
    | O => (inl (stubResponse 302 {["Location" := ["/next"]]} ""), S n)
    | S _ => (inl (stubResponse 200 ∅ "code=abc"), S n)
    end.

(** The state of a program that has made no client yet. *)
Definition emptyState : @State stubPlatform :=
  @Build_State stubPlatform ∅ [] 0%nat.

(** * Properties *)

Section Properties.
Context `{Platform}.

(** ** Strings *)

Lemma append_cons (x : ascii) (a b : string) :
  String x a +:+ b = String x (a +:+ b).
Proof. reflexivity. Qed.

Lemma append_empty (s : string) : s +:+ "" = s.
Proof.
  induction s as [|x s IH]; [reflexivity|].
  by rewrite append_cons, IH.
Qed.

Lemma append_assoc (a b c : string) : (a +:+ b) +:+ c = a +:+ (b +:+ c).
Proof.
  induction a as [|x a IH]; [reflexivity|].
  by rewrite !append_cons, IH.
Qed.

Lemma length_append (a b : string) :
  String.length (a +:+ b) = (String.length a + String.length b)%nat.
Proof.
  induction a as [|x a IH]; [reflexivity|].
  rewrite append_cons. simpl. by rewrite IH.
Qed.

Lemma substring_whole (a b : string) :
  String.substring 0 (String.length a) (a +:+ b) = a.
Proof.
  induction a as [|x a IH]; [by destruct b|].
  rewrite append_cons. simpl. by rewrite IH.
Qed.

Lemma substring_skip (a b : string) (n : nat) :
  String.substring (String.length a) n (a +:+ b) = String.substring 0 n b.
Proof.
  induction a as [|x a IH]; [reflexivity|].
  rewrite append_cons. simpl. exact IH.
Qed.

Lemma substring_end (a b : string) :
  String.substring (String.length a) (String.length b) (a +:+ b) = b.
Proof.
  rewrite substring_skip. rewrite <- (append_empty b) at 2.
  apply substring_whole.
Qed.

(** What [Sprintf] makes of the authorization template. *)
Lemma Sprintf_authorizeURL (requestToken redirectUrl : string) :
  fmt.Sprintf authorizeURL [requestToken; redirectUrl]
  = "https://getpocket.com/auth/authorize?request_token=" +:+ requestToken
    +:+ "&redirect_uri=" +:+ redirectUrl.
Proof.
  unfold authorizeURL. simpl. rewrite (append_empty redirectUrl).
  reflexivity.
Qed.

(** ** The monad *)

Lemma bind_Return {A B} (m : M A) (k : A → M B) (s s' : State) (a : A) :
  m s = (Return a, s') → bind m k s = k a s'.
Proof. unfold bind. by intros ->. Qed.

Lemma bind_Panic {A B} (m : M A) (k : A → M B) (s s' : State) reason :
  m s = (Panic reason, s') → bind m k s = (Panic reason, s').
Proof. unfold bind. by intros ->. Qed.

Lemma deref_holds (c : ptr) (s : State) (cl : Client) :
  holds c s cl → deref c s = (Return cl, s).
Proof. unfold holds, deref. by intros ->. Qed.

(** Run the first step of a sequence with what is known of its result. *)
Ltac step Hrun := rewrite (bind_Return _ _ _ _ _ Hrun).
Ltac read Hc := step (deref_holds _ _ _ Hc).

Lemma deref_state (c : ptr) (s : State) : (deref c s).2 = s.
Proof. unfold deref. by destruct (c ≫= _). Qed.

(** A step that leaves the [Client] objects alone, followed by steps that
    do, leaves them alone. *)
Lemma bind_clients {A B} (m : M A) (k : A → M B) (s : State) :
  clients (m s).2 = clients s →
  (∀ a s', clients (k a s').2 = clients s') →
  clients (bind m k s).2 = clients s.
Proof.
  intros Hm Hk. unfold bind. destruct (m s) as [[a|reason] s1]; simpl in *.
  - by rewrite Hk.
  - exact Hm.
Qed.

Lemma Do_clients hc req (s : State) : clients (Do hc req s).2 = clients s.
Proof.
  unfold Do. destruct hc as [hc|]; [|reflexivity].
  by destruct (ClientDo hc req (world s)).
Qed.

Lemma doHTTP_clients c ctx endpoint b (s : State) :
  clients (doHTTP c ctx endpoint b s).2 = clients s.
Proof.
  unfold doHTTP. destruct (Marshal b); [|reflexivity].
  destruct (http.NewRequestWithContext _ _ _ _); [|reflexivity].
  apply bind_clients; [by rewrite deref_state|]. intros cl s1.
  apply bind_clients; [apply Do_clients|]. intros [resp|err] s2; [|reflexivity].
  case_decide; [reflexivity|].
  destruct (io.ReadAll _) as [respB [err|]]; [reflexivity|].
  by destruct (url.ParseQuery respB) as [values [err|]].
Qed.

(** ** What [doHTTP] makes of an answer *)

Lemma xError_canonical :
  http.CanonicalMIMEHeaderKey "x-error" = "X-Error"
  ∧ http.CanonicalMIMEHeaderKey xErrorHeader = "X-Error".
Proof. split; reflexivity. Qed.

Lemma Sprintf_API_Error (detail : string) :
  fmt.Sprintf "API Error : %v" [detail] = "API Error : " +:+ detail.
Proof. simpl. by rewrite (append_empty detail). Qed.

Lemma doHTTP_not_OK c ctx endpoint b (s s' : State) resp :
  answered c ctx endpoint b s resp s' →
  http.StatusCode resp ≠ 200 →
  doHTTP c ctx endpoint b s
  = (Return (∅, Some (errorsNew
       ("API Error : " +:+ http.Get (http.RespHeader resp) "X-Error"))), s').
Proof.
  intros (cl & payload & req & Hc & Hm & Hreq & Hdo) Hstatus.
  unfold doHTTP. rewrite Hm, Hreq.
  read Hc.
  step Hdo.
  rewrite decide_True by exact Hstatus.
  by rewrite Sprintf_API_Error.
Qed.

Lemma doHTTP_OK c ctx endpoint b (s s' : State) resp respB :
  answered c ctx endpoint b s resp s' →
  http.StatusCode resp = 200 →
  io.ReadAll (http.Body resp) = (respB, None) →
  doHTTP c ctx endpoint b s
  = (Return match url.ParseQuery respB with
            | (_, Some err) =>
                (∅, Some (errorsJoin err
                            (errorsNew "Failed to parse response values")))
            | (values, None) => (values, None)
            end, s').
Proof.
  intros (cl & payload & req & Hc & Hm & Hreq & Hdo) Hstatus Hread.
  unfold doHTTP. rewrite Hm, Hreq.
  read Hc.
  step Hdo.
  rewrite decide_False by (intros Hne; by apply Hne).
  rewrite Hread. by destruct (url.ParseQuery respB) as [values [err|]].
Qed.

(** The request that [doHTTP] makes for a payload. *)
Lemma posted_request (cx : context.t) (url payload : string) :
  http.withHeader
    {| http.Method := http.MethodPost; http.URL := url;
       http.ReqHeader := ∅; http.ReqBody := payload; http.ctx := cx |}
    "Content-Type" "application/json; charset=UTF8"
  = {| http.Method := "POST"; http.URL := url;
       http.ReqHeader :=
         {["Content-Type" := ["application/json; charset=UTF8"]]};
       http.ReqBody := payload; http.ctx := cx |}.
Proof.
  unfold http.withHeader, http.Add. simpl. f_equal.
Qed.

(** With a client to send it and a payload, [doHTTP] hands exactly one
    request to the [http.Client] and returns. *)
Lemma doHTTP_sends c ctx endpoint b (s : State) cl hc cx payload :
  holds c s cl → client cl = Some hc → ctx = Some cx →
  Marshal b = inl payload →
  ∃ r s', doHTTP c ctx endpoint b s = (Return r, s')
    ∧ sent s' = (sent s ++ [
        {| http.Method := "POST";
           http.URL := "https://getpocket.com/v3" +:+ endpoint;
           http.ReqHeader :=
             {["Content-Type" := ["application/json; charset=UTF8"]]};
           http.ReqBody := payload;
           http.ctx := cx |}])%list.
Proof.
  intros Hc Hhc -> Hm. unfold doHTTP. rewrite Hm.
  unfold http.NewRequestWithContext. rewrite posted_request.
  read Hc.
  rewrite Hhc. unfold bind, Do.
  match goal with
  | |- context [ClientDo ?h ?r ?w] =>
      destruct (ClientDo h r w) as [[resp|err] w'] eqn:Hanswer
  end; [|by eexists _, _].
  case_decide; [by eexists _, _|].
  destruct (io.ReadAll _) as [respB [err|]]; [by eexists _, _|].
  destruct (url.ParseQuery respB) as [values [err|]]; by eexists _, _.
Qed.

(** ** Validation *)

(** C2: an empty redirect URI, an empty request token, and an [AddInput]
    with an empty URL or access token are refused with a validation error
    in the state the call started in: nothing was handed to an
    [http.Client], so that no transport was invoked, and the world is as
    before. *)
Theorem C2_validation_without_request (c : ptr) (ctx : context.Context)
    (input : AddInput.t) (s : State) :
  GetRequestToken c ctx "" s
    = (Return ("", Some (errorsNew "ReditectUri is empty")), s)
  ∧ GetAccessToken c ctx "" s
    = (Return ("", Some (errorsNew "RequestToken is empty")), s)
  ∧ (AddInput.URL input = "" ∨ AddInput.AccessToken input = "" →
     ∃ err, AddInput.validate input = Some err
            ∧ Add c ctx input s = (Return (Some err), s)).
Proof.
  split; [reflexivity|]. split; [reflexivity|].
  intros Hempty. unfold Add, AddInput.validate.
  destruct (decide (AddInput.URL input = "")) as [|Hurl]; [by eexists|].
  destruct (decide (AddInput.AccessToken input = "")); [by eexists|].
  by destruct Hempty.
Qed.

(** ** The authorization URL *)

(** C5: for a non-empty request token and redirect URL,
    [GetAuthorizationURL] returns the authorization address with the two
    values put in, no error, and the state it was called in (no request
    is made); for [abc] and [https://localhost] that is the address of
    the specification. *)
Theorem C5_GetAuthorizationURL_template (c : ptr) (ctx : context.Context)
    (requestToken redirectUrl : string) (s : State) :
  requestToken ≠ "" → redirectUrl ≠ "" →
  GetAuthorizationURL c ctx requestToken redirectUrl s
    = (Return ("https://getpocket.com/auth/authorize?request_token="
                 +:+ requestToken +:+ "&redirect_uri=" +:+ redirectUrl,
               None), s)
  ∧ GetAuthorizationURL c ctx "abc" "https://localhost" s
    = (Return ("https://getpocket.com/auth/authorize?request_token=abc&redirect_uri=https://localhost",
               None), s).
Proof.
  intros Htoken Hurl. split; [|reflexivity].
  unfold GetAuthorizationURL. repeat case_decide; try done.
  by rewrite Sprintf_authorizeURL.
Qed.

(** C10: the request token and the redirect URL stand in the returned
    address byte for byte, whatever bytes they hold: the address is as
    long as the 65 fixed bytes of the template and the two values
    together, the request token is the part after the first 51 bytes, and
    the redirect URL is the end of the address. *)
Theorem C10_GetAuthorizationURL_verbatim (c : ptr) (ctx : context.Context)
    (requestToken redirectUrl : string) (s : State) :
  requestToken ≠ "" → redirectUrl ≠ "" →
  ∃ address,
    GetAuthorizationURL c ctx requestToken redirectUrl s
      = (Return (address, None), s)
    ∧ String.length address
      = (65 + String.length requestToken + String.length redirectUrl)%nat
    ∧ String.substring 51 (String.length requestToken) address = requestToken
    ∧ String.substring (65 + String.length requestToken)
        (String.length redirectUrl) address = redirectUrl.
Proof.
  intros Htoken Hurl.
  set (prefix := "https://getpocket.com/auth/authorize?request_token=").
  set (middle := "&redirect_uri=").
  exists (prefix +:+ requestToken +:+ middle +:+ redirectUrl).
  split; [|split; [|split]].
  - unfold GetAuthorizationURL. rewrite Sprintf_authorizeURL.
    by repeat case_decide.
  - rewrite !length_append. change (String.length prefix) with 51%nat.
    change (String.length middle) with 14%nat. lia.
  - change 51%nat with (String.length prefix).
    rewrite substring_skip. apply substring_whole.
  - replace (prefix +:+ requestToken +:+ middle +:+ redirectUrl)
      with ((prefix +:+ requestToken +:+ middle) +:+ redirectUrl)
      by (by rewrite !append_assoc).
    replace (65 + String.length requestToken)%nat
      with (String.length (prefix +:+ requestToken +:+ middle)).
    + apply substring_end.
    + rewrite !length_append. change (String.length prefix) with 51%nat.
      change (String.length middle) with 14%nat. lia.
Qed.

(** ** The token exchanges *)

Lemma Get_absent (values : url.Values) (key : string) :
  values !! key = None → url.Get values key = "".
Proof. unfold url.Get. by intros ->. Qed.

Lemma ParseQuery_code :
  url.ParseQuery "code=qwe-rty-123" = ({["code" := ["qwe-rty-123"]]}, None).
Proof. vm_compute. reflexivity. Qed.

Lemma ParseQuery_access_token :
  url.ParseQuery "access_token=qwe-rty-123"
  = ({["access_token" := ["qwe-rty-123"]]}, None).
Proof. vm_compute. reflexivity. Qed.

(** C3: after a request with a non-empty redirect URI that is answered
    with status 200 and a body that parses as a query string,
    [GetRequestToken] returns the first value of [code] when it is not
    empty and fails when it is empty, as it is when the body has no
    [code]; the body [code=qwe-rty-123] gives [qwe-rty-123] and no
    error. *)
Theorem C3_GetRequestToken_returns_code (c : ptr) (cl : Client)
    (ctx : context.Context) (redirectUri : string) (s s' : State)
    (resp : http.Response) (respB : string) (values : url.Values) :
  redirectUri ≠ "" →
  holds c s cl →
  answered c ctx endpointRequestToken
    (requestTokenBody
       {| requestTokenRequest.ConsumerKey := consumerKey cl;
          requestTokenRequest.RedirectURI := redirectUri |}) s resp s' →
  http.StatusCode resp = 200 →
  io.ReadAll (http.Body resp) = (respB, None) →
  url.ParseQuery respB = (values, None) →
  (url.Get values "code" ≠ "" →
   GetRequestToken c ctx redirectUri s
   = (Return (url.Get values "code", None), s'))
  ∧ (url.Get values "code" = "" →
     GetRequestToken c ctx redirectUri s
     = (Return ("", Some (errorsNew "Empty request token in API response")),
        s'))
  ∧ (values !! "code" = None → url.Get values "code" = "")
  ∧ (respB = "code=qwe-rty-123" →
     GetRequestToken c ctx redirectUri s
     = (Return ("qwe-rty-123", None), s')).
Proof.
  intros Huri Hc Hanswered Hstatus Hread Hparse.
  assert (Hrun : GetRequestToken c ctx redirectUri s
            = (if decide (url.Get values "code" = "")
               then ret ("", Some (errorsNew
                                     "Empty request token in API response"))
               else ret (url.Get values "code", None)) s').
  { unfold GetRequestToken. rewrite decide_False by exact Huri.
    read Hc.
    step (doHTTP_OK _ _ _ _ _ _ _ _ Hanswered Hstatus Hread).
    by rewrite Hparse. }
  rewrite Hrun. repeat split.
  - intros Hcode. by rewrite decide_False.
  - intros Hcode. by rewrite decide_True.
  - apply Get_absent.
  - intros ->. rewrite ParseQuery_code in Hparse.
    injection Hparse as <-. reflexivity.
Qed.

(** C1: after a request with a non-empty request token that is answered
    with status 200 and a body that parses as a query string,
    [GetAccessToken] returns the first value of the field [code] when it
    is not empty, so that the body [code=qwe-rty-123] gives the token
    [qwe-rty-123]; when the body has no [code] or an empty one the call
    fails, and so it does for the body [access_token=qwe-rty-123], whose
    token is not returned. *)
Theorem C1_GetAccessToken_reads_code (c : ptr) (cl : Client)
    (ctx : context.Context) (requestToken : string) (s s' : State)
    (resp : http.Response) (respB : string) (values : url.Values) :
  requestToken ≠ "" →
  holds c s cl →
  answered c ctx endpointAuthorize
    (accessTokenBody
       {| accessTokenRequest.ConsumerKey := consumerKey cl;
          accessTokenRequest.Code := requestToken |}) s resp s' →
  http.StatusCode resp = 200 →
  io.ReadAll (http.Body resp) = (respB, None) →
  url.ParseQuery respB = (values, None) →
  (url.Get values "code" ≠ "" →
   GetAccessToken c ctx requestToken s
   = (Return (url.Get values "code", None), s'))
  ∧ (values !! "code" = None →
     GetAccessToken c ctx requestToken s
     = (Return ("", Some (errorsNew "Empty access token in API response")),
        s'))
  ∧ (respB = "access_token=qwe-rty-123" →
     GetAccessToken c ctx requestToken s
     = (Return ("", Some (errorsNew "Empty access token in API response")),
        s'))
  ∧ (url.Get values "code" = "" →
     GetAccessToken c ctx requestToken s
     = (Return ("", Some (errorsNew "Empty access token in API response")),
        s'))
  ∧ (respB = "code=qwe-rty-123" →
     GetAccessToken c ctx requestToken s
     = (Return ("qwe-rty-123", None), s')).
Proof.
  intros Htoken Hc Hanswered Hstatus Hread Hparse.
  assert (Hrun : GetAccessToken c ctx requestToken s
            = (if decide (url.Get values "code" = "")
               then ret ("", Some (errorsNew
                                     "Empty access token in API response"))
               else ret (url.Get values "code", None)) s').
  { unfold GetAccessToken. rewrite decide_False by exact Htoken.
    read Hc.
    step (doHTTP_OK _ _ _ _ _ _ _ _ Hanswered Hstatus Hread).
    by rewrite Hparse. }
  rewrite Hrun. repeat split.
  - intros Hcode. by rewrite decide_False.
  - intros Hcode. by rewrite decide_True by by apply Get_absent.
  - intros ->. rewrite ParseQuery_access_token in Hparse.
    injection Hparse as <-. reflexivity.
  - intros Hcode. by rewrite decide_True.
  - intros ->. rewrite ParseQuery_code in Hparse.
    injection Hparse as <-. reflexivity.
Qed.

(** ** Answers other than 200 *)

(** C4: a response whose status is not 200, returned by the
    [http.Client] to which the request was handed, makes [doHTTP] and,
    with valid inputs, each of [GetRequestToken], [GetAccessToken] and
    [Add] fail with the error whose text is [API Error : ] followed by the
    first [X-Error] header of that response, which is the empty string
    when the response has no such header; the body of the response has no
    part in it. *)
Theorem C4_not_200_fails_with_X_Error (c : ptr) (cl : Client)
    (ctx : context.Context) (s s' : State) (resp : http.Response) :
  http.StatusCode resp ≠ 200 →
  holds c s cl →
  let err :=
    errorsNew ("API Error : " +:+ http.Get (http.RespHeader resp) "X-Error") in
  (∀ endpoint b,
     answered c ctx endpoint b s resp s' →
     doHTTP c ctx endpoint b s = (Return (∅, Some err), s'))
  ∧ (∀ redirectUri,
       redirectUri ≠ "" →
       answered c ctx endpointRequestToken
         (requestTokenBody
            {| requestTokenRequest.ConsumerKey := consumerKey cl;
               requestTokenRequest.RedirectURI := redirectUri |}) s resp s' →
       GetRequestToken c ctx redirectUri s = (Return ("", Some err), s'))
  ∧ (∀ requestToken,
       requestToken ≠ "" →
       answered c ctx endpointAuthorize
         (accessTokenBody
            {| accessTokenRequest.ConsumerKey := consumerKey cl;
               accessTokenRequest.Code := requestToken |}) s resp s' →
       GetAccessToken c ctx requestToken s = (Return ("", Some err), s'))
  ∧ (∀ input,
       AddInput.validate input = None →
       answered c ctx endpointAdd
         (addBody (AddInput.generateRequest input (consumerKey cl)))
         s resp s' →
       Add c ctx input s = (Return (Some err), s'))
  ∧ (http.RespHeader resp !! "X-Error" = None →
     err = errorsNew "API Error : ").
Proof.
  intros Hstatus Hc err. repeat split.
  - intros endpoint b Hanswered. by apply doHTTP_not_OK.
  - intros redirectUri Huri Hanswered.
    unfold GetRequestToken. rewrite decide_False by exact Huri.
    read Hc.
    by step (doHTTP_not_OK _ _ _ _ _ _ _ Hanswered Hstatus).
  - intros requestToken Htoken Hanswered.
    unfold GetAccessToken. rewrite decide_False by exact Htoken.
    read Hc.
    by step (doHTTP_not_OK _ _ _ _ _ _ _ Hanswered Hstatus).
  - intros input Hvalid Hanswered. unfold Add. rewrite Hvalid.
    read Hc.
    by step (doHTTP_not_OK _ _ _ _ _ _ _ Hanswered Hstatus).
  - intros Habsent. unfold err, http.Get.
    change (http.CanonicalMIMEHeaderKey "X-Error") with "X-Error".
    by rewrite Habsent.
Qed.

(** ** Adding a bookmark *)

(** C6, as the code has it: for a valid [AddInput], [Add] returns no
    error on an answer with status 200 whose body is read to its end and
    parses as a query string, whatever fields the body sets. *)
Theorem C6_Add_succeeds_on_parsed_200 (c : ptr) (cl : Client)
    (ctx : context.Context) (input : AddInput.t) (s s' : State)
    (resp : http.Response) (respB : string) :
  AddInput.validate input = None →
  holds c s cl →
  answered c ctx endpointAdd
    (addBody (AddInput.generateRequest input (consumerKey cl))) s resp s' →
  http.StatusCode resp = 200 →
  io.ReadAll (http.Body resp) = (respB, None) →
  (url.ParseQuery respB).2 = None →
  Add c ctx input s = (Return None, s').
Proof.
  intros Hvalid Hc Hanswered Hstatus Hread Hparse. unfold Add.
  rewrite Hvalid.
  read Hc.
  step (doHTTP_OK _ _ _ _ _ _ _ _ Hanswered Hstatus Hread).
  destruct (url.ParseQuery respB) as [values err]. simpl in Hparse.
  by rewrite Hparse.
Qed.

(** C7: the wire value of [Add] carries the URL, the title and the access
    token of the input, the consumer key it is given, and as its tags the
    input's tags joined with commas ([a,b] for the tags [a] and [b], the
    empty string for no tags); and the request [Add] hands to its
    [http.Client] for a valid input is the POST to [/v3/add] whose body
    is the encoding of that value made with the client's consumer key. *)
Theorem C7_Add_wire_request :
  (∀ input key,
     let wire := AddInput.generateRequest input key in
     addRequest.Tags wire = strings.Join (AddInput.Tags input) ","
     ∧ addRequest.Url wire = AddInput.URL input
     ∧ addRequest.Title wire = AddInput.Title input
     ∧ addRequest.AccessToken wire = AddInput.AccessToken input
     ∧ addRequest.ConsumerKey wire = key)
  ∧ strings.Join ["a"; "b"] "," = "a,b"
  ∧ strings.Join [] "," = ""
  ∧ (∀ (c : ptr) (cl : Client) hc ctx cx input payload (s : State),
       AddInput.validate input = None →
       holds c s cl → client cl = Some hc → ctx = Some cx →
       Marshal (addBody (AddInput.generateRequest input (consumerKey cl)))
         = inl payload →
       ∃ r s',
         Add c ctx input s = (Return r, s')
         ∧ sent s' = (sent s ++ [
             {| http.Method := "POST";
                http.URL := "https://getpocket.com/v3/add";
                http.ReqHeader :=
                  {["Content-Type" := ["application/json; charset=UTF8"]]};
                http.ReqBody := payload;
                http.ctx := cx |}])%list).
Proof.
  split; [by intros input key|]. split; [reflexivity|].
  split; [reflexivity|].
  intros c cl hc ctx cx input payload s Hvalid Hc Hhc Hctx Hm.
  destruct (doHTTP_sends c ctx endpointAdd _ s cl hc cx payload
              Hc Hhc Hctx Hm) as ([values err] & s' & Hrun & Hsent).
  exists err, s'. split; [|exact Hsent].
  unfold Add. rewrite Hvalid.
  read Hc.
  by step Hrun.
Qed.

(** ** Construction and the life of a [Client] *)

(** C8: [NewClient] refuses the empty consumer key with a validation
    error and changes nothing; for any other key it returns, without an
    error, an address not in use where it puts a [Client] that holds
    the key and an
    [http.Client] with a timeout of five seconds (5000000000 ns) and the
    default transport; nothing is handed to an [http.Client] and the world
    is as before. *)
Theorem C8_NewClient (key : string) (s : State) :
  (key = "" →
   NewClient key s
   = (Return (None, Some (errorsNew "Consumer key is empty")), s))
  ∧ (key ≠ "" →
     let l := fresh (dom (clients s)) in
     clients s !! l = None
     ∧ NewClient key s
         = (Return (Some l, None),
            {| clients :=
                 <[l := {| client :=
                             Some {| http.Timeout := 5 * time.Second;
                                     http.Transport := None |};
                           consumerKey := key |}]> (clients s);
               sent := sent s;
               world := world s |}))
  ∧ 5 * time.Second = 5000000000.
Proof.
  split; [by intros ->|]. split; [|reflexivity].
  intros Hkey l. split.
  - apply not_elem_of_dom, is_fresh.
  - unfold NewClient. by rewrite decide_False.
Qed.

(** C9: no public operation changes a [Client]: after each of
    [GetRequestToken], [GetAuthorizationURL], [GetAccessToken] and [Add],
    on any input and however the call ends, the allocated [Client]
    objects, with their consumer keys and HTTP clients, are the ones from
    before the call. *)
Theorem C9_Client_unchanged (c : ptr) (ctx : context.Context)
    (redirectUri requestToken redirectUrl : string) (input : AddInput.t)
    (s : State) :
  clients (GetRequestToken c ctx redirectUri s).2 = clients s
  ∧ clients (GetAuthorizationURL c ctx requestToken redirectUrl s).2
    = clients s
  ∧ clients (GetAccessToken c ctx requestToken s).2 = clients s
  ∧ clients (Add c ctx input s).2 = clients s.
Proof.
  repeat split.
  - unfold GetRequestToken. case_decide; [reflexivity|].
    apply bind_clients; [by rewrite deref_state|]. intros cl s1.
    apply bind_clients; [apply doHTTP_clients|].
    intros [values [err|]] s2; [reflexivity|]. by case_decide.
  - unfold GetAuthorizationURL. by repeat case_decide.
  - unfold GetAccessToken. case_decide; [reflexivity|].
    apply bind_clients; [by rewrite deref_state|]. intros cl s1.
    apply bind_clients; [apply doHTTP_clients|].
    intros [values [err|]] s2; [reflexivity|]. by case_decide.
  - unfold Add. destruct (AddInput.validate input); [reflexivity|].
    apply bind_clients; [by rewrite deref_state|]. intros cl s1.
    apply bind_clients; [apply doHTTP_clients|].
    by intros [values err] s2.
Qed.

(** * Further properties of the package *)

(** ** The authorization URL: refusals and ambiguity *)

(** X1: [GetAuthorizationURL] refuses an empty request token with
    [RequestToken is empty], whatever the redirect URL, and a non-empty
    request token with an empty redirect URL with [RedirectUrl is empty];
    both times it returns the empty string and changes nothing. *)
Theorem X1_GetAuthorizationURL_refuses_empty (c : ptr)
    (ctx : context.Context) (requestToken redirectUrl : string) (s : State) :
  GetAuthorizationURL c ctx "" redirectUrl s
    = (Return ("", Some (errorsNew "RequestToken is empty")), s)
  ∧ (requestToken ≠ "" →
     GetAuthorizationURL c ctx requestToken "" s
     = (Return ("", Some (errorsNew "RedirectUrl is empty")), s)).
Proof.
  split; [reflexivity|]. intros Htoken.
  unfold GetAuthorizationURL. by rewrite decide_False.
Qed.

(** X2: the address does not tell where the request token ends: a
    request token [a] followed by [&redirect_uri=] and [b], with the
    redirect URL [u], gives the same address as the request token [a]
    with the redirect URL [b] followed by [&redirect_uri=] and [u]. *)
Theorem X2_GetAuthorizationURL_ambiguous (c : ptr) (ctx : context.Context)
    (a b u : string) (s : State) :
  a ≠ "" → u ≠ "" →
  GetAuthorizationURL c ctx (a +:+ "&redirect_uri=" +:+ b) u s
  = GetAuthorizationURL c ctx a (b +:+ "&redirect_uri=" +:+ u) s
  ∧ ∃ address,
      GetAuthorizationURL c ctx a (b +:+ "&redirect_uri=" +:+ u) s
      = (Return (address, None), s).
Proof.
  intros Ha Hu.
  assert (Hleft : a +:+ "&redirect_uri=" +:+ b ≠ "")
    by (destruct a; [done | discriminate]).
  assert (Hright : b +:+ "&redirect_uri=" +:+ u ≠ "")
    by (destruct b; discriminate).
  unfold GetAuthorizationURL.
  rewrite !decide_False by assumption.
  rewrite !Sprintf_authorizeURL. split; [|by eexists].
  by rewrite !append_assoc.
Qed.

(** ** What every call keeps *)

Lemma sentAtMostOne_refl (s : State) : sentAtMostOne s s.
Proof. by left. Qed.

Lemma Do_sentAtMostOne hc req (s : State) :
  sentAtMostOne s (Do hc req s).2.
Proof.
  unfold Do. destruct hc as [hc|]; [|by left].
  destruct (ClientDo hc req (world s)) as [answer w]. right.
  by eexists _, _.
Qed.

(** After a read through the receiver, the rest of a call decides. *)
Lemma deref_then {A} (P : State → Prop) (c : ptr) (k : Client → M A)
    (s : State) :
  P s → (∀ cl, P (k cl s).2) → P (bind (deref c) k s).2.
Proof.
  intros Hs Hk. unfold bind, deref.
  destruct (c ≫= _) as [cl|]; [apply Hk | exact Hs].
Qed.

Lemma doHTTP_sentAtMostOne c ctx endpoint b (s : State) :
  sentAtMostOne s (doHTTP c ctx endpoint b s).2.
Proof.
  unfold doHTTP. destruct (Marshal b); [|by left].
  destruct (http.NewRequestWithContext _ _ _ _) as [req|]; [|by left].
  apply deref_then; [by left|]. intros cl. unfold bind.
  pose proof (Do_sentAtMostOne (client cl)
    (http.withHeader req "Content-Type" "application/json; charset=UTF8") s)
    as Hdo.
  destruct (Do _ _ s) as [[[resp|err]|reason] s1]; simpl in Hdo;
    try exact Hdo.
  case_decide; [exact Hdo|].
  destruct (io.ReadAll _) as [respB [err|]]; [exact Hdo|].
  by destruct (url.ParseQuery respB) as [values [err|]].
Qed.

(** X3: a call of a public operation or of [doHTTP] calls
    [http.Client.Do] at most once and never tries again: when it ends, by
    returning or by a panic, the state is the one it started in, or that
    state with one more request handed to an [http.Client] and the world
    as that call of [Do] left it. *)
Theorem X3_at_most_one_request (c : ptr) (ctx : context.Context)
    (endpoint : string) (b : body)
    (redirectUri requestToken redirectUrl : string) (input : AddInput.t)
    (s : State) :
  sentAtMostOne s (doHTTP c ctx endpoint b s).2
  ∧ sentAtMostOne s (GetRequestToken c ctx redirectUri s).2
  ∧ sentAtMostOne s (GetAccessToken c ctx requestToken s).2
  ∧ sentAtMostOne s (Add c ctx input s).2
  ∧ (GetAuthorizationURL c ctx requestToken redirectUrl s).2 = s.
Proof.
  split; [apply doHTTP_sentAtMostOne|]. split; [|split; [|split]].
  - unfold GetRequestToken. case_decide; [by left|].
    apply deref_then; [by left|]. intros cl. unfold bind.
    pose proof (doHTTP_sentAtMostOne c ctx endpointRequestToken
      (requestTokenBody
         {| requestTokenRequest.ConsumerKey := consumerKey cl;
            requestTokenRequest.RedirectURI := redirectUri |}) s) as Hdo.
    destruct (doHTTP _ _ _ _ s) as [[[values [err|]]|reason] s1];
      simpl in Hdo; try exact Hdo.
    by case_decide.
  - unfold GetAccessToken. case_decide; [by left|].
    apply deref_then; [by left|]. intros cl. unfold bind.
    pose proof (doHTTP_sentAtMostOne c ctx endpointAuthorize
      (accessTokenBody
         {| accessTokenRequest.ConsumerKey := consumerKey cl;
            accessTokenRequest.Code := requestToken |}) s) as Hdo.
    destruct (doHTTP _ _ _ _ s) as [[[values [err|]]|reason] s1];
      simpl in Hdo; try exact Hdo.
    by case_decide.
  - unfold Add. destruct (AddInput.validate input); [by left|].
    apply deref_then; [by left|]. intros cl. unfold bind.
    pose proof (doHTTP_sentAtMostOne c ctx endpointAdd
      (addBody (AddInput.generateRequest input (consumerKey cl))) s) as Hdo.
    by destruct (doHTTP _ _ _ _ s) as [[[values err]|reason] s1].
  - unfold GetAuthorizationURL. by repeat case_decide.
Qed.

Lemma doHTTP_error_shape c ctx endpoint b (s : State) :
  match (doHTTP c ctx endpoint b s).1 with
  | Return (values, Some _) => values = ∅
  | _ => True
  end.
Proof.
  unfold doHTTP. destruct (Marshal b); [|reflexivity].
  destruct (http.NewRequestWithContext _ _ _ _) as [req|]; [|reflexivity].
  unfold bind, deref. destruct (c ≫= _) as [cl|]; [|exact I].
  destruct (Do _ _ s) as [[[resp|err]|reason] s1]; [|reflexivity|exact I].
  case_decide; [reflexivity|].
  destruct (io.ReadAll _) as [respB [err|]]; [reflexivity|].
  by destruct (url.ParseQuery respB) as [values [err|]].
Qed.

(** X4: a token operation returns a token or an error, never both and
    never neither: with an error comes the empty string, without one a
    token that is not empty; and an error of [doHTTP] comes with empty
    values. *)
Theorem X4_token_or_error (c : ptr) (ctx : context.Context)
    (endpoint : string) (b : body) (redirectUri requestToken : string)
    (s : State) :
  match (GetRequestToken c ctx redirectUri s).1 with
  | Return (token, None) => token ≠ ""
  | Return (token, Some _) => token = ""
  | Panic _ => True
  end
  ∧ match (GetAccessToken c ctx requestToken s).1 with
    | Return (token, None) => token ≠ ""
    | Return (token, Some _) => token = ""
    | Panic _ => True
    end
  ∧ match (doHTTP c ctx endpoint b s).1 with
    | Return (values, Some _) => values = ∅
    | _ => True
    end.
Proof.
  split; [|split; [|apply doHTTP_error_shape]].
  - unfold GetRequestToken. case_decide; [reflexivity|].
    unfold bind, deref. destruct (c ≫= _) as [cl|]; [|exact I].
    destruct (doHTTP _ _ _ _ s) as [[[values [err|]]|reason] s1];
      [reflexivity| |exact I].
    by case_decide.
  - unfold GetAccessToken. case_decide; [reflexivity|].
    unfold bind, deref. destruct (c ≫= _) as [cl|]; [|exact I].
    destruct (doHTTP _ _ _ _ s) as [[[values [err|]]|reason] s1];
      [reflexivity| |exact I].
    by case_decide.
Qed.

(** ** Panics *)

Lemma doHTTP_returns c cl ctx endpoint b (s : State) :
  holds c s cl → is_Some (client cl) →
  ∃ r s', doHTTP c ctx endpoint b s = (Return r, s').
Proof.
  intros Hc [hc Hhc]. unfold doHTTP.
  destruct (Marshal b); [|by eexists _, _].
  destruct (http.NewRequestWithContext _ _ _ _) as [req|]; [|by eexists _, _].
  read Hc. rewrite Hhc. unfold bind, Do.
  match goal with
  | |- context [ClientDo ?h ?r ?w] =>
      destruct (ClientDo h r w) as [[resp|err] w']
  end; [|by eexists _, _].
  case_decide; [by eexists _, _|].
  destruct (io.ReadAll _) as [respB [err|]]; [by eexists _, _|].
  destruct (url.ParseQuery respB) as [values [err|]]; by eexists _, _.
Qed.

(** X5: on a receiver that points to a [Client] with an [http.Client],
    as every receiver made by [NewClient] does, no public operation
    panics, whatever its inputs and whatever [http.Client.Do] returns. *)
Theorem X5_no_panic (c : ptr) (cl : Client) (ctx : context.Context)
    (redirectUri requestToken redirectUrl : string) (input : AddInput.t)
    (s : State) :
  holds c s cl → is_Some (client cl) →
  (∃ r s', GetRequestToken c ctx redirectUri s = (Return r, s'))
  ∧ (∃ r s', GetAccessToken c ctx requestToken s = (Return r, s'))
  ∧ (∃ r s', Add c ctx input s = (Return r, s'))
  ∧ (∃ r s',
       GetAuthorizationURL c ctx requestToken redirectUrl s = (Return r, s')).
Proof.
  intros Hc Hhc. split; [|split; [|split]].
  - unfold GetRequestToken. case_decide; [by eexists _, _|]. read Hc.
    destruct (doHTTP_returns c cl ctx endpointRequestToken
      (requestTokenBody
         {| requestTokenRequest.ConsumerKey := consumerKey cl;
            requestTokenRequest.RedirectURI := redirectUri |}) s Hc Hhc)
      as ([values [err|]] & s' & Hrun); step Hrun; [by eexists _, _|].
    case_decide; by eexists _, _.
  - unfold GetAccessToken. case_decide; [by eexists _, _|]. read Hc.
    destruct (doHTTP_returns c cl ctx endpointAuthorize
      (accessTokenBody
         {| accessTokenRequest.ConsumerKey := consumerKey cl;
            accessTokenRequest.Code := requestToken |}) s Hc Hhc)
      as ([values [err|]] & s' & Hrun); step Hrun; [by eexists _, _|].
    case_decide; by eexists _, _.
  - unfold Add. destruct (AddInput.validate input); [by eexists _, _|].
    read Hc.
    destruct (doHTTP_returns c cl ctx endpointAdd
      (addBody (AddInput.generateRequest input (consumerKey cl))) s Hc Hhc)
      as ([values err] & s' & Hrun); step Hrun. by eexists _, _.
  - unfold GetAuthorizationURL. repeat case_decide; by eexists _, _.
Qed.

(** X6: on a nil receiver the three network operations panic as soon as
    their input has passed validation, before anything is encoded or
    sent; the state is the one of the call. *)
Theorem X6_nil_receiver_panics (ctx : context.Context)
    (redirectUri requestToken : string) (input : AddInput.t) (s : State) :
  (redirectUri ≠ "" →
   GetRequestToken None ctx redirectUri s = (Panic nilDereference, s))
  ∧ (requestToken ≠ "" →
     GetAccessToken None ctx requestToken s = (Panic nilDereference, s))
  ∧ (AddInput.validate input = None →
     Add None ctx input s = (Panic nilDereference, s)).
Proof.
  split; [|split].
  - intros Huri. unfold GetRequestToken. by rewrite decide_False.
  - intros Htoken. unfold GetAccessToken. by rewrite decide_False.
  - intros Hvalid. unfold Add. by rewrite Hvalid.
Qed.

(** ** How the operations pass on what [doHTTP] returns *)

Lemma GetRequestToken_passes_error c cl ctx (redirectUri : string)
    (s s' : State) values err :
  redirectUri ≠ "" → holds c s cl →
  doHTTP c ctx endpointRequestToken
    (requestTokenBody
       {| requestTokenRequest.ConsumerKey := consumerKey cl;
          requestTokenRequest.RedirectURI := redirectUri |}) s
    = (Return (values, Some err), s') →
  GetRequestToken c ctx redirectUri s = (Return ("", Some err), s').
Proof.
  intros Huri Hc Hrun. unfold GetRequestToken.
  rewrite decide_False by exact Huri. read Hc. by step Hrun.
Qed.

Lemma GetAccessToken_passes_error c cl ctx (requestToken : string)
    (s s' : State) values err :
  requestToken ≠ "" → holds c s cl →
  doHTTP c ctx endpointAuthorize
    (accessTokenBody
       {| accessTokenRequest.ConsumerKey := consumerKey cl;
          accessTokenRequest.Code := requestToken |}) s
    = (Return (values, Some err), s') →
  GetAccessToken c ctx requestToken s = (Return ("", Some err), s').
Proof.
  intros Htoken Hc Hrun. unfold GetAccessToken.
  rewrite decide_False by exact Htoken. read Hc. by step Hrun.
Qed.

Lemma Add_passes c cl ctx (input : AddInput.t) (s s' : State) values err :
  AddInput.validate input = None → holds c s cl →
  doHTTP c ctx endpointAdd
    (addBody (AddInput.generateRequest input (consumerKey cl))) s
    = (Return (values, err), s') →
  Add c ctx input s = (Return err, s').
Proof.
  intros Hvalid Hc Hrun. unfold Add. rewrite Hvalid. read Hc. by step Hrun.
Qed.

(** ** Failures before the request is made *)

Lemma doHTTP_nil_context c endpoint b (s : State) :
  ∃ err, doHTTP c None endpoint b s = (Return (∅, Some err), s)
    ∧ ∀ payload, Marshal b = inl payload →
        err = errorsJoin (errorsNew "net/http: nil Context")
                (errorsNew "Failed to create request").
Proof.
  unfold doHTTP. destruct (Marshal b) as [payload|cause].
  - eexists. split; [reflexivity|]. by intros _ _.
  - eexists. split; [reflexivity|]. by intros payload.
Qed.

(** X7: with a nil context nothing is sent: [doHTTP] returns an error in
    the state of the call, which is the nil-context error of the request
    constructor wrapped as [Failed to create request] when the value could
    be encoded; and the three operations, their inputs valid, fail with
    the empty result in the state of the call. *)
Theorem X7_nil_context_sends_nothing (c : ptr) (cl : Client)
    (endpoint : string) (b : body) (redirectUri requestToken : string)
    (input : AddInput.t) (s : State) :
  holds c s cl →
  (∀ payload,
     Marshal b = inl payload →
     doHTTP c None endpoint b s
     = (Return (∅, Some (errorsJoin (errorsNew "net/http: nil Context")
                           (errorsNew "Failed to create request"))), s))
  ∧ (redirectUri ≠ "" →
     ∃ err, GetRequestToken c None redirectUri s
            = (Return ("", Some err), s))
  ∧ (requestToken ≠ "" →
     ∃ err, GetAccessToken c None requestToken s
            = (Return ("", Some err), s))
  ∧ (AddInput.validate input = None →
     ∃ err, Add c None input s = (Return (Some err), s)).
Proof.
  intros Hc. split; [|split; [|split]].
  - intros payload Hm.
    destruct (doHTTP_nil_context c endpoint b s) as (err & Hrun & Herr).
    by rewrite Hrun, (Herr payload Hm).
  - intros Huri.
    destruct (doHTTP_nil_context c endpointRequestToken
      (requestTokenBody
         {| requestTokenRequest.ConsumerKey := consumerKey cl;
            requestTokenRequest.RedirectURI := redirectUri |}) s)
      as (err & Hrun & _).
    exists err. by eapply GetRequestToken_passes_error.
  - intros Htoken.
    destruct (doHTTP_nil_context c endpointAuthorize
      (accessTokenBody
         {| accessTokenRequest.ConsumerKey := consumerKey cl;
            accessTokenRequest.Code := requestToken |}) s)
      as (err & Hrun & _).
    exists err. by eapply GetAccessToken_passes_error.
  - intros Hvalid.
    destruct (doHTTP_nil_context c endpointAdd
      (addBody (AddInput.generateRequest input (consumerKey cl))) s)
      as (err & Hrun & _).
    exists err. by eapply Add_passes.
Qed.

(** ** Failures of the exchange *)

Lemma doHTTP_dropped c ctx endpoint b (s s' : State) cause :
  dropped c ctx endpoint b s cause s' →
  doHTTP c ctx endpoint b s
  = (Return (∅, Some (errorsJoin cause
                        (errorsNew "Failed to send http request..."))), s').
Proof.
  intros (cl & payload & req & Hc & Hm & Hreq & Hdo).
  unfold doHTTP. rewrite Hm, Hreq. read Hc. by step Hdo.
Qed.

(** X8: when [http.Client.Do] returns an error instead of a response,
    [doHTTP] and, their inputs valid, the three operations return that
    error joined with [Failed to send http request...], after the one
    request that failed. *)
Theorem X8_transport_error (c : ptr) (cl : Client) (ctx : context.Context)
    (s s' : State) (cause : error) :
  holds c s cl →
  let err := errorsJoin cause (errorsNew "Failed to send http request...") in
  (∀ endpoint b,
     dropped c ctx endpoint b s cause s' →
     doHTTP c ctx endpoint b s = (Return (∅, Some err), s'))
  ∧ (∀ redirectUri,
       redirectUri ≠ "" →
       dropped c ctx endpointRequestToken
         (requestTokenBody
            {| requestTokenRequest.ConsumerKey := consumerKey cl;
               requestTokenRequest.RedirectURI := redirectUri |}) s cause s' →
       GetRequestToken c ctx redirectUri s = (Return ("", Some err), s'))
  ∧ (∀ requestToken,
       requestToken ≠ "" →
       dropped c ctx endpointAuthorize
         (accessTokenBody
            {| accessTokenRequest.ConsumerKey := consumerKey cl;
               accessTokenRequest.Code := requestToken |}) s cause s' →
       GetAccessToken c ctx requestToken s = (Return ("", Some err), s'))
  ∧ (∀ input,
       AddInput.validate input = None →
       dropped c ctx endpointAdd
         (addBody (AddInput.generateRequest input (consumerKey cl)))
         s cause s' →
       Add c ctx input s = (Return (Some err), s')).
Proof.
  intros Hc err. split; [|split; [|split]].
  - intros endpoint b Hdropped. by apply doHTTP_dropped.
  - intros redirectUri Huri Hdropped.
    eapply GetRequestToken_passes_error; [done..|]. by apply doHTTP_dropped.
  - intros requestToken Htoken Hdropped.
    eapply GetAccessToken_passes_error; [done..|]. by apply doHTTP_dropped.
  - intros input Hvalid Hdropped.
    eapply Add_passes; [done..|]. by apply doHTTP_dropped.
Qed.

Lemma doHTTP_unread c ctx endpoint b (s s' : State) resp partial cause :
  answered c ctx endpoint b s resp s' →
  http.StatusCode resp = 200 →
  io.ReadAll (http.Body resp) = (partial, Some cause) →
  doHTTP c ctx endpoint b s
  = (Return (∅, Some (errorsJoin cause (errorsNew "Failed read response"))),
     s').
Proof.
  intros (cl & payload & req & Hc & Hm & Hreq & Hdo) Hstatus Hread.
  unfold doHTTP. rewrite Hm, Hreq. read Hc. step Hdo.
  rewrite decide_False by (intros Hne; by apply Hne).
  by rewrite Hread.
Qed.

(** X9: when the body of an answer with status 200 cannot be read to
    its end, what was read is dropped: [doHTTP] and, their inputs valid,
    the three operations return the reader's error wrapped as
    [Failed read response]. *)
Theorem X9_unreadable_body (c : ptr) (cl : Client) (ctx : context.Context)
    (s s' : State) (resp : http.Response) (partial : string)
    (cause : error) :
  holds c s cl →
  http.StatusCode resp = 200 →
  io.ReadAll (http.Body resp) = (partial, Some cause) →
  let err := errorsJoin cause (errorsNew "Failed read response") in
  (∀ endpoint b,
     answered c ctx endpoint b s resp s' →
     doHTTP c ctx endpoint b s = (Return (∅, Some err), s'))
  ∧ (∀ redirectUri,
       redirectUri ≠ "" →
       answered c ctx endpointRequestToken
         (requestTokenBody
            {| requestTokenRequest.ConsumerKey := consumerKey cl;
               requestTokenRequest.RedirectURI := redirectUri |}) s resp s' →
       GetRequestToken c ctx redirectUri s = (Return ("", Some err), s'))
  ∧ (∀ requestToken,
       requestToken ≠ "" →
       answered c ctx endpointAuthorize
         (accessTokenBody
            {| accessTokenRequest.ConsumerKey := consumerKey cl;
               accessTokenRequest.Code := requestToken |}) s resp s' →
       GetAccessToken c ctx requestToken s = (Return ("", Some err), s'))
  ∧ (∀ input,
       AddInput.validate input = None →
       answered c ctx endpointAdd
         (addBody (AddInput.generateRequest input (consumerKey cl)))
         s resp s' →
       Add c ctx input s = (Return (Some err), s')).
Proof.
  intros Hc Hstatus Hread err. split; [|split; [|split]].
  - intros endpoint b Hanswered. by eapply doHTTP_unread.
  - intros redirectUri Huri Hanswered.
    eapply GetRequestToken_passes_error; [done..|]. by eapply doHTTP_unread.
  - intros requestToken Htoken Hanswered.
    eapply GetAccessToken_passes_error; [done..|]. by eapply doHTTP_unread.
  - intros input Hvalid Hanswered.
    eapply Add_passes; [done..|]. by eapply doHTTP_unread.
Qed.

Lemma doHTTP_unparsed c ctx endpoint b (s s' : State) resp respB values
    cause :
  answered c ctx endpoint b s resp s' →
  http.StatusCode resp = 200 →
  io.ReadAll (http.Body resp) = (respB, None) →
  url.ParseQuery respB = (values, Some cause) →
  doHTTP c ctx endpoint b s
  = (Return (∅, Some (errorsJoin cause
                        (errorsNew "Failed to parse response values"))), s').
Proof.
  intros Hanswered Hstatus Hread Hparse.
  rewrite (doHTTP_OK _ _ _ _ _ _ _ _ Hanswered Hstatus Hread).
  by rewrite Hparse.
Qed.

(** X10: one setting of the body that [url.ParseQuery] rejects spoils
    the whole answer: on status 200 the token operations return the
    parser's error wrapped as [Failed to parse response values] and no
    token, also when the values parsed beside it hold a [code]. *)
Theorem X10_unparsable_body_loses_code (c : ptr) (cl : Client)
    (ctx : context.Context) (s s' : State) (resp : http.Response)
    (respB : string) (values : url.Values) (cause : error) :
  holds c s cl →
  http.StatusCode resp = 200 →
  io.ReadAll (http.Body resp) = (respB, None) →
  url.ParseQuery respB = (values, Some cause) →
  let err := errorsJoin cause (errorsNew "Failed to parse response values") in
  (∀ redirectUri,
     redirectUri ≠ "" →
     answered c ctx endpointRequestToken
       (requestTokenBody
          {| requestTokenRequest.ConsumerKey := consumerKey cl;
             requestTokenRequest.RedirectURI := redirectUri |}) s resp s' →
     GetRequestToken c ctx redirectUri s = (Return ("", Some err), s'))
  ∧ (∀ requestToken,
       requestToken ≠ "" →
       answered c ctx endpointAuthorize
         (accessTokenBody
            {| accessTokenRequest.ConsumerKey := consumerKey cl;
               accessTokenRequest.Code := requestToken |}) s resp s' →
       GetAccessToken c ctx requestToken s = (Return ("", Some err), s')).
Proof.
  intros Hc Hstatus Hread Hparse err. split.
  - intros redirectUri Huri Hanswered.
    eapply GetRequestToken_passes_error; [done..|].
    by eapply doHTTP_unparsed.
  - intros requestToken Htoken Hanswered.
    eapply GetAccessToken_passes_error; [done..|].
    by eapply doHTTP_unparsed.
Qed.

(** ** The requests of the token operations *)

(** X11: for a valid input, a non-nil context and a receiver with an
    [http.Client], [GetRequestToken] hands that [http.Client] one POST
    to [/v3/oauth/request] and [GetAccessToken] one POST to
    [/v3/oauth/authorize], each with the JSON content type, the caller's
    context and as body the encoding of the wire value made of the
    client's consumer key and the input. *)
Theorem X11_token_requests (c : ptr) (cl : Client) hc
    (ctx : context.Context) (cx : context.t) (s : State) :
  holds c s cl → client cl = Some hc → ctx = Some cx →
  (∀ redirectUri payload,
     redirectUri ≠ "" →
     Marshal (requestTokenBody
                {| requestTokenRequest.ConsumerKey := consumerKey cl;
                   requestTokenRequest.RedirectURI := redirectUri |})
       = inl payload →
     ∃ r s',
       GetRequestToken c ctx redirectUri s = (Return r, s')
       ∧ sent s' = (sent s ++ [
           {| http.Method := "POST";
              http.URL := "https://getpocket.com/v3/oauth/request";
              http.ReqHeader :=
                {["Content-Type" := ["application/json; charset=UTF8"]]};
              http.ReqBody := payload;
              http.ctx := cx |}])%list)
  ∧ (∀ requestToken payload,
       requestToken ≠ "" →
       Marshal (accessTokenBody
                  {| accessTokenRequest.ConsumerKey := consumerKey cl;
                     accessTokenRequest.Code := requestToken |})
         = inl payload →
       ∃ r s',
         GetAccessToken c ctx requestToken s = (Return r, s')
         ∧ sent s' = (sent s ++ [
             {| http.Method := "POST";
                http.URL := "https://getpocket.com/v3/oauth/authorize";
                http.ReqHeader :=
                  {["Content-Type" := ["application/json; charset=UTF8"]]};
                http.ReqBody := payload;
                http.ctx := cx |}])%list).
Proof.
  intros Hc Hhc Hctx. split.
  - intros redirectUri payload Huri Hm.
    destruct (doHTTP_sends c ctx endpointRequestToken _ s cl hc cx payload
                Hc Hhc Hctx Hm) as ([values err] & s' & Hrun & Hsent).
    unfold GetRequestToken. rewrite decide_False by exact Huri.
    read Hc. step Hrun. destruct err as [err|]; [by eexists _, _|].
    case_decide; by eexists _, _.
  - intros requestToken payload Htoken Hm.
    destruct (doHTTP_sends c ctx endpointAuthorize _ s cl hc cx payload
                Hc Hhc Hctx Hm) as ([values err] & s' & Hrun & Hsent).
    unfold GetAccessToken. rewrite decide_False by exact Htoken.
    read Hc. step Hrun. destruct err as [err|]; [by eexists _, _|].
    case_decide; by eexists _, _.
Qed.

(** ** From [NewClient] to a call *)

Lemma NewClient_makes (key : string) (s : State) :
  key ≠ "" →
  NewClient key s
  = (Return (Some (fresh (dom (clients s))), None),
     {| clients :=
          <[fresh (dom (clients s)) :=
              {| client := Some {| http.Timeout := defaultTimeout;
                                   http.Transport := None |};
                 consumerKey := key |}]> (clients s);
        sent := sent s; world := world s |}).
Proof. intros Hkey. unfold NewClient. by rewrite decide_False. Qed.

(** The state [doHTTP] ends in when it reaches the [http.Client]. *)
Lemma doHTTP_exchange c cl hc cx endpoint b payload (s : State) :
  holds c s cl → client cl = Some hc → Marshal b = inl payload →
  let request :=
    {| http.Method := "POST";
       http.URL := "https://getpocket.com/v3" +:+ endpoint;
       http.ReqHeader :=
         {["Content-Type" := ["application/json; charset=UTF8"]]};
       http.ReqBody := payload;
       http.ctx := cx |} in
  ∃ r, doHTTP c (Some cx) endpoint b s
       = (Return r,
          {| clients := clients s;
             sent := sent s ++ [request];
             world := (ClientDo hc request (world s)).2 |}).
Proof.
  intros Hc Hhc Hm request. unfold doHTTP. rewrite Hm.
  unfold http.NewRequestWithContext. rewrite posted_request.
  read Hc. rewrite Hhc. unfold bind, Do. subst request. unfold host.
  match goal with
  | |- context [ClientDo ?h ?r ?w] =>
      destruct (ClientDo h r w) as [[resp|err] w']
  end; [|by eexists].
  case_decide; [by eexists|].
  destruct (io.ReadAll _) as [respB [err|]]; [by eexists|].
  destruct (url.ParseQuery respB) as [values [err|]]; by eexists.
Qed.

(** X12: a [Client] made by [NewClient] works with the key it was made
    with and an [http.Client] of its own, with the timeout of five seconds
    and the default transport: [GetRequestToken] on it hands that
    [http.Client], in the world as it was before [NewClient], one POST to
    [/v3/oauth/request] whose body encodes that key and the redirect URI,
    and returns. *)
Theorem X12_NewClient_then_GetRequestToken (key redirectUri : string)
    (cx : context.t) (payload : string) (s : State) :
  key ≠ "" → redirectUri ≠ "" →
  Marshal (requestTokenBody
             {| requestTokenRequest.ConsumerKey := key;
                requestTokenRequest.RedirectURI := redirectUri |})
    = inl payload →
  let request :=
    {| http.Method := "POST";
       http.URL := "https://getpocket.com/v3/oauth/request";
       http.ReqHeader :=
         {["Content-Type" := ["application/json; charset=UTF8"]]};
       http.ReqBody := payload;
       http.ctx := cx |} in
  ∃ c s1 r s2,
    NewClient key s = (Return (c, None), s1)
    ∧ GetRequestToken c (Some cx) redirectUri s1 = (Return r, s2)
    ∧ sent s2 = (sent s ++ [request])%list
    ∧ world s2
      = (ClientDo {| http.Timeout := 5 * time.Second;
                     http.Transport := None |} request (world s)).2.
Proof.
  intros Hkey Huri Hm request.
  eexists _, _. setoid_rewrite (NewClient_makes key s Hkey).
  set (l := fresh (dom (clients s))).
  set (cl := {| client := Some {| http.Timeout := defaultTimeout;
                                  http.Transport := None |};
                consumerKey := key |}).
  set (s1 := {| clients := <[l := cl]> (clients s);
                sent := sent s; world := world s |}).
  assert (Hc : holds (Some l) s1 cl) by apply lookup_insert_eq.
  destruct (doHTTP_exchange (Some l) cl _ cx endpointRequestToken _ payload
              s1 Hc eq_refl Hm) as ([values err] & Hrun).
  unfold GetRequestToken. rewrite decide_False by exact Huri.
  read Hc. step Hrun.
  destruct err as [err|]; [by eexists _, _|].
  case_decide; by eexists _, _.
Qed.

(** X13: two clients made one after the other are two objects: their
    addresses differ, each holds the key it was made with, and the
    clients that were there before are still there. *)
Theorem X13_NewClient_twice (key1 key2 : string) (s : State) :
  key1 ≠ "" → key2 ≠ "" →
  ∃ l1 l2 s1 s2,
    NewClient key1 s = (Return (Some l1, None), s1)
    ∧ NewClient key2 s1 = (Return (Some l2, None), s2)
    ∧ l1 ≠ l2
    ∧ consumerKey <$> clients s2 !! l1 = Some key1
    ∧ consumerKey <$> clients s2 !! l2 = Some key2
    ∧ ∀ l cl, clients s !! l = Some cl → clients s2 !! l = Some cl.
Proof.
  intros Hkey1 Hkey2. eexists _, _, _, _.
  split; [by apply NewClient_makes|]. split; [by apply NewClient_makes|].
  simpl. set (l1 := fresh (dom (clients s))).
  match goal with |- context [fresh (dom ?m)] => set (m1 := m) end.
  set (l2 := fresh (dom m1)).
  assert (Hl1 : clients s !! l1 = None) by apply not_elem_of_dom, is_fresh.
  assert (Hl2 : m1 !! l2 = None) by apply not_elem_of_dom, is_fresh.
  assert (Hne : l1 ≠ l2).
  { intros Heq. rewrite <- Heq in Hl2. subst m1.
    by rewrite lookup_insert_eq in Hl2. }
  split; [exact Hne|]. split; [|split].
  - rewrite lookup_insert_ne by done. subst m1.
    by rewrite lookup_insert_eq.
  - by rewrite lookup_insert_eq.
  - intros l cl Hl.
    assert (l ≠ l2).
    { intros ->. subst m1. rewrite lookup_insert_ne in Hl2 by done.
      congruence. }
    rewrite lookup_insert_ne by done. subst m1.
    rewrite lookup_insert_ne by congruence. exact Hl.
Qed.

(** ** Tags on the wire *)

Lemma Split_without (x : string) (c : ascii) :
  strings.ContainsByte x c = false → strings.Split x c = [x].
Proof.
  induction x as [|a x IH]; [reflexivity|]. simpl.
  destruct (Ascii.eqb a c); [discriminate|]. intros Hx. by rewrite IH.
Qed.

Lemma Split_at (x r : string) (c : ascii) :
  strings.ContainsByte x c = false →
  strings.Split (x +:+ String c r) c = x :: strings.Split r c.
Proof.
  induction x as [|a x IH].
  - intros _. change ("" +:+ String c r) with (String c r). simpl.
    by rewrite Ascii.eqb_refl.
  - rewrite append_cons. simpl.
    destruct (Ascii.eqb a c); [discriminate|]. intros Hx. by rewrite IH.
Qed.

Lemma Split_Join (tags : list string) :
  tags ≠ [] →
  Forall (fun tag => strings.ContainsByte tag "," = false) tags →
  strings.Split (strings.Join tags ",") "," = tags.
Proof.
  intros Hsome Hplain. induction Hplain as [|tag tags Htag Htags IH]; [done|].
  destruct tags as [|next tags].
  - by apply Split_without.
  - change (strings.Join (tag :: next :: tags) ",")
      with (tag +:+ String "," (strings.Join (next :: tags) ",")).
    rewrite Split_at by exact Htag. by rewrite IH.
Qed.

(** X14: the tags of an [AddInput] can be read back from the wire value
    by splitting its tags at the commas, when there is at least one tag
    and no tag holds a comma; a tag with a comma in it reads back as two,
    for it goes on the wire like the two tags around the comma. *)
Theorem X14_tags_round_trip (input : AddInput.t) (key : string) :
  AddInput.Tags input ≠ [] →
  Forall (fun tag => strings.ContainsByte tag "," = false)
    (AddInput.Tags input) →
  strings.Split (addRequest.Tags (AddInput.generateRequest input key)) ","
    = AddInput.Tags input
  ∧ ∀ a b more,
      strings.Join ((a +:+ "," +:+ b) :: more) ","
      = strings.Join (a :: b :: more) ",".
Proof.
  intros Hsome Hplain. split; [by apply Split_Join|].
  intros a b more. destruct more as [|next more]; simpl.
  - reflexivity.
  - by rewrite append_assoc.
Qed.

(** ** Tokens in the body *)

Lemma ContainsByte_append (a b : string) (c : ascii) :
  strings.ContainsByte (a +:+ b) c
  = strings.ContainsByte a c || strings.ContainsByte b c.
Proof.
  induction a as [|x a IH]; [reflexivity|]. rewrite append_cons. simpl.
  by destruct (Ascii.eqb x c).
Qed.

Lemma literal_bytes (s : string) :
  literal s = true →
  strings.ContainsByte s "%" = false ∧ strings.ContainsByte s "+" = false
  ∧ strings.ContainsByte s "&" = false ∧ strings.ContainsByte s ";" = false.
Proof.
  unfold literal. rewrite !andb_true_iff, !negb_true_iff. tauto.
Qed.

(** A text without [%] and [+] is its own decoding. *)
Lemma QueryUnescape_literal (s : string) :
  strings.ContainsByte s "%" = false → strings.ContainsByte s "+" = false →
  url.QueryUnescape s = inl s.
Proof.
  induction s as [|c s IH]; [reflexivity|]. simpl strings.ContainsByte.
  destruct (Ascii.eqb c "%") eqn:Hpercent; [discriminate|].
  destruct (Ascii.eqb c "+") eqn:Hplus; [discriminate|].
  intros Hp Hq. specialize (IH Hp Hq).
  destruct c as [[] [] [] [] [] [] [] []];
    try (cbv in Hpercent; discriminate); try (cbv in Hplus; discriminate);
    simpl; by rewrite IH.
Qed.

(** The first value of a key stays the first, whatever is parsed after. *)
Lemma parseQuery_first (settings : list string) (m : url.Values)
    (err : option error) (key first : string) (others : list string) :
  m !! key = Some (first :: others) →
  url.Get (url.parseQuery m settings err).1 key = first.
Proof.
  revert m err others.
  induction settings as [|setting settings IH]; intros m err others Hm.
  - unfold url.Get. simpl. by rewrite Hm.
  - simpl. destruct (strings.ContainsByte setting ";"); [by eapply IH|].
    destruct (String.eqb setting ""); [by eapply IH|].
    destruct (strings.Cut setting "=") as [[k v] found].
    destruct (url.QueryUnescape k) as [k'|]; [|by eapply IH].
    destruct (url.QueryUnescape v) as [v'|]; [|by eapply IH].
    destruct (decide (k' = key)) as [->|Hne].
    + eapply (IH _ _ (others ++ [v'])%list). unfold url.add.
      rewrite Hm. simpl. by rewrite lookup_insert_eq.
    + eapply IH. unfold url.add. rewrite lookup_insert_ne by done.
      exact Hm.
Qed.

(** What [url.ParseQuery] makes of a first setting [code=token]. *)
Lemma parseQuery_code (token : string) (settings : list string) :
  literal token = true →
  url.parseQuery ∅ (("code=" +:+ token) :: settings) None
  = url.parseQuery {["code" := [token]]} settings None.
Proof.
  intros (Hpercent & Hplus & Hamp & Hsemi)%literal_bytes.
  change ("code=" +:+ token)
    with (String "c" (String "o" (String "d" (String "e"
            (String "=" token))))).
  cbn [url.parseQuery]. cbn [strings.ContainsByte Ascii.eqb Bool.eqb].
  rewrite Hsemi. cbn [strings.Cut Ascii.eqb Bool.eqb String.eqb].
  change (url.QueryUnescape "code") with (@inl string error "code").
  by rewrite (QueryUnescape_literal token Hpercent Hplus).
Qed.

Lemma ParseQuery_code_only (token : string) :
  literal token = true →
  url.ParseQuery ("code=" +:+ token) = ({["code" := [token]]}, None).
Proof.
  intros Hliteral. unfold url.ParseQuery.
  rewrite Split_without.
  - by rewrite parseQuery_code.
  - apply literal_bytes in Hliteral as (_ & _ & Hamp & _).
    rewrite ContainsByte_append, Hamp. reflexivity.
Qed.

Lemma ParseQuery_code_first (token rest : string) :
  literal token = true →
  url.Get (url.ParseQuery ("code=" +:+ token +:+ "&" +:+ rest)).1 "code"
  = token.
Proof.
  intros Hliteral. unfold url.ParseQuery.
  rewrite <- append_assoc.
  change ("&" +:+ rest) with (String "&" rest).
  rewrite Split_at.
  - rewrite parseQuery_code by exact Hliteral.
    eapply parseQuery_first. apply lookup_singleton_eq.
  - apply literal_bytes in Hliteral as (_ & _ & Hamp & _).
    rewrite ContainsByte_append, Hamp. reflexivity.
Qed.

Lemma GetRequestToken_token c cl ctx (redirectUri : string) (s s' : State)
    (values : url.Values) :
  redirectUri ≠ "" → holds c s cl →
  doHTTP c ctx endpointRequestToken
    (requestTokenBody
       {| requestTokenRequest.ConsumerKey := consumerKey cl;
          requestTokenRequest.RedirectURI := redirectUri |}) s
    = (Return (values, None), s') →
  url.Get values "code" ≠ "" →
  GetRequestToken c ctx redirectUri s
  = (Return (url.Get values "code", None), s').
Proof.
  intros Huri Hc Hrun Hcode. unfold GetRequestToken.
  rewrite decide_False by exact Huri. read Hc. step Hrun.
  by rewrite decide_False.
Qed.

Lemma GetAccessToken_token c cl ctx (requestToken : string) (s s' : State)
    (values : url.Values) :
  requestToken ≠ "" → holds c s cl →
  doHTTP c ctx endpointAuthorize
    (accessTokenBody
       {| accessTokenRequest.ConsumerKey := consumerKey cl;
          accessTokenRequest.Code := requestToken |}) s
    = (Return (values, None), s') →
  url.Get values "code" ≠ "" →
  GetAccessToken c ctx requestToken s
  = (Return (url.Get values "code", None), s').
Proof.
  intros Htoken Hc Hrun Hcode. unfold GetAccessToken.
  rewrite decide_False by exact Htoken. read Hc. step Hrun.
  by rewrite decide_False.
Qed.

(** X15: a token without [%], [+], [&] and [;] comes back as the service
    wrote it: on status 200 with the body [code=] and the token, alone or
    followed by [&] and further settings that parse, the token operations
    return that token, whatever the further settings are, a second [code]
    among them too. *)
Theorem X15_literal_token_returned (c : ptr) (cl : Client)
    (ctx : context.Context) (s s' : State) (resp : http.Response)
    (respB token : string) :
  token ≠ "" → literal token = true →
  holds c s cl →
  http.StatusCode resp = 200 →
  io.ReadAll (http.Body resp) = (respB, None) →
  (respB = "code=" +:+ token
   ∨ ∃ rest, respB = "code=" +:+ token +:+ "&" +:+ rest
             ∧ (url.ParseQuery respB).2 = None) →
  (∀ redirectUri,
     redirectUri ≠ "" →
     answered c ctx endpointRequestToken
       (requestTokenBody
          {| requestTokenRequest.ConsumerKey := consumerKey cl;
             requestTokenRequest.RedirectURI := redirectUri |}) s resp s' →
     GetRequestToken c ctx redirectUri s = (Return (token, None), s'))
  ∧ (∀ requestToken,
       requestToken ≠ "" →
       answered c ctx endpointAuthorize
         (accessTokenBody
            {| accessTokenRequest.ConsumerKey := consumerKey cl;
               accessTokenRequest.Code := requestToken |}) s resp s' →
       GetAccessToken c ctx requestToken s = (Return (token, None), s')).
Proof.
  intros Hsome Hliteral Hc Hstatus Hread Hbody.
  assert (Hparse : ∃ values,
            url.ParseQuery respB = (values, None)
            ∧ url.Get values "code" = token).
  { destruct Hbody as [->|(rest & -> & Hparsed)].
    - eexists. split; [by apply ParseQuery_code_only|].
      unfold url.Get. by rewrite lookup_singleton_eq.
    - pose proof (ParseQuery_code_first token rest Hliteral) as Hfirst.
      destruct (url.ParseQuery _) as [values err]. simpl in *. subst err.
      by exists values. }
  destruct Hparse as (values & Hparse & Hcode). split.
  - intros redirectUri Huri Hanswered. rewrite <- Hcode.
    eapply GetRequestToken_token; [done..| |by rewrite Hcode].
    rewrite (doHTTP_OK _ _ _ _ _ _ _ _ Hanswered Hstatus Hread).
    by rewrite Hparse.
  - intros requestToken Htoken Hanswered. rewrite <- Hcode.
    eapply GetAccessToken_token; [done..| |by rewrite Hcode].
    rewrite (doHTTP_OK _ _ _ _ _ _ _ _ Hanswered Hstatus Hread).
    by rewrite Hparse.
Qed.

End Properties.

(** * The tests of [pocket_test.go]

    What the operations return on the stub for the cases of the
    repository's tests.  [TestClient_GetAccessToken] expects its first case
    to return the token [qwe-rty-123]; the operation returns an error
    there. *)

Example TestClient_GetAccessToken :
  (@GetAccessToken stubPlatform stubClient context.Background "12345-qwerty"
     (stubState 200 ∅ "access_token=qwe-rty-123")).1
  = Return ("", Some (errorsNew "Empty access token in API response"))
  ∧ (@GetAccessToken stubPlatform stubClient context.Background ""
       (stubState 0 ∅ "")).1
    = Return ("", Some (errorsNew "RequestToken is empty"))
  ∧ (@GetAccessToken stubPlatform stubClient context.Background
       "12345-qwerty" (stubState 200 ∅ "access_token=")).1
    = Return ("", Some (errorsNew "Empty access token in API response"))
  ∧ (@GetAccessToken stubPlatform stubClient context.Background
       "12345-qwerty" (stubState 400 ∅ "")).1
    = Return ("", Some (errorsNew "API Error : ")).
Proof. repeat split; vm_compute; reflexivity. Qed.

Example TestClient_GetRequestToken :
  (@GetRequestToken stubPlatform stubClient context.Background
     "https://localhost" (stubState 200 ∅ "code=qwe-rty-123")).1
  = Return ("qwe-rty-123", None)
  ∧ (@GetRequestToken stubPlatform stubClient context.Background ""
       (stubState 0 ∅ "")).1
    = Return ("", Some (errorsNew "ReditectUri is empty"))
  ∧ (@GetRequestToken stubPlatform stubClient context.Background
       "https://localhost" (stubState 200 ∅ "code=")).1
    = Return ("", Some (errorsNew "Empty request token in API response"))
  ∧ (@GetRequestToken stubPlatform stubClient context.Background
       "https://localhost" (stubState 400 ∅ "")).1
    = Return ("", Some (errorsNew "API Error : ")).
Proof. repeat split; vm_compute; reflexivity. Qed.

Example TestClient_Add :
  (@Add stubPlatform stubClient context.Background someInput
     (stubState 200 ∅ "")).1 = Return None
  ∧ (@Add stubPlatform stubClient context.Background
       {| AddInput.URL := "some_url.com"; AddInput.Title := "some_title";
          AddInput.Tags := []; AddInput.AccessToken := "access-to-ken" |}
       (stubState 200 ∅ "")).1 = Return None
  ∧ (@Add stubPlatform stubClient context.Background
       {| AddInput.URL := "some_url.com"; AddInput.Title := "some_title";
          AddInput.Tags := ["some_tag_1"; "some_tag_2"];
          AddInput.AccessToken := "" |}
       (stubState 0 ∅ "")).1
    = Return (Some (errorsNew "access token is empty"))
  ∧ (@Add stubPlatform stubClient context.Background
       {| AddInput.URL := ""; AddInput.Title := ""; AddInput.Tags := [];
          AddInput.AccessToken := "" |}
       (stubState 0 ∅ "")).1
    = Return (Some (errorsNew "required URL values is empty"))
  ∧ (@Add stubPlatform stubClient context.Background
       {| AddInput.URL := ""; AddInput.Title := "some_title";
          AddInput.Tags := ["some_tag_1"; "some_tag_2"];
          AddInput.AccessToken := "access-to-ken" |}
       (stubState 0 ∅ "")).1
    = Return (Some (errorsNew "required URL values is empty")).
Proof. repeat split; vm_compute; reflexivity. Qed.

(** What the operations see is the answer of [http.Client.Do], not the
    first answer of the transport: a redirect is followed, with one
    request handed to the client and two round trips, and a transport
    that redirects for ever ends the call after ten. *)
Example redirect_followed :
  (@GetRequestToken stubPlatform stubClient context.Background
     "https://localhost" (stateWith (clientWith movedThenToken))).1
  = Return ("abc", None)
  ∧ world (@GetRequestToken stubPlatform stubClient context.Background
             "https://localhost" (stateWith (clientWith movedThenToken))).2
    = 2%nat
  ∧ (@GetRequestToken stubPlatform stubClient context.Background
       "https://localhost"
       (stubState 302 {["Location" := ["/next"]]} "")).1
    = Return ("", Some (errorsJoin
                          (urlError "Post" "/next"
                             (errorsNew "stopped after 10 redirects"))
                          (errorsNew "Failed to send http request...")))
  ∧ world (@GetRequestToken stubPlatform stubClient context.Background
             "https://localhost"
             (stubState 302 {["Location" := ["/next"]]} "")).2
    = 10%nat.
Proof. repeat split; vm_compute; reflexivity. Qed.

(** * The properties on the stub of the tests *)

Lemma stub_answered (statusCode : Z) (header : http.Header)
    (content : string) (endpoint : string) (b : body) :
  final (stubResponse statusCode header content) = true →
  @answered stubPlatform stubClient context.Background endpoint b
    (stubState statusCode header content)
    (stubResponse statusCode header content)
    (stubAnswered statusCode header content (posted endpoint b)).
Proof.
  intros Hfinal.
  exists (newClient statusCode header content), (plainJSON b).
  eexists. repeat split. unfold Do. simpl. unfold stubDo. simpl.
  by rewrite Hfinal.
Defined.

Lemma C1_witness :
  @GetAccessToken stubPlatform stubClient context.Background "12345-qwerty"
    (stubState 200 ∅ "code=qwe-rty-123")
  = (Return ("qwe-rty-123", None),
     stubAnswered 200 ∅ "code=qwe-rty-123"
       (posted endpointAuthorize (accessTokenOf "12345-qwerty")))
  ∧ @GetAccessToken stubPlatform stubClient context.Background
      "12345-qwerty" (stubState 200 ∅ "access_token=qwe-rty-123")
    = (Return ("", Some (errorsNew "Empty access token in API response")),
       stubAnswered 200 ∅ "access_token=qwe-rty-123"
         (posted endpointAuthorize (accessTokenOf "12345-qwerty"))).
Proof.
  split.
  - destruct (@C1_GetAccessToken_reads_code stubPlatform stubClient
                (newClient 200 ∅ "code=qwe-rty-123")
                context.Background "12345-qwerty"
                (stubState 200 ∅ "code=qwe-rty-123")
                (stubAnswered 200 ∅ "code=qwe-rty-123"
                   (posted endpointAuthorize (accessTokenOf "12345-qwerty")))
                (stubResponse 200 ∅ "code=qwe-rty-123")
                "code=qwe-rty-123" {["code" := ["qwe-rty-123"]]})
      as (_ & _ & _ & _ & Hcode).
    + discriminate.
    + reflexivity.
    + by apply stub_answered.
    + reflexivity.
    + reflexivity.
    + vm_compute. reflexivity.
    + exact (Hcode eq_refl).
  - destruct (@C1_GetAccessToken_reads_code stubPlatform stubClient
                (newClient 200 ∅ "access_token=qwe-rty-123")
                context.Background "12345-qwerty"
                (stubState 200 ∅ "access_token=qwe-rty-123")
                (stubAnswered 200 ∅ "access_token=qwe-rty-123"
                   (posted endpointAuthorize (accessTokenOf "12345-qwerty")))
                (stubResponse 200 ∅ "access_token=qwe-rty-123")
                "access_token=qwe-rty-123"
                {["access_token" := ["qwe-rty-123"]]})
      as (_ & _ & Hexample & _).
    + discriminate.
    + reflexivity.
    + by apply stub_answered.
    + reflexivity.
    + reflexivity.
    + vm_compute. reflexivity.
    + exact (Hexample eq_refl).
Defined.

Lemma C2_witness :
  ∃ err,
    AddInput.validate
      {| AddInput.URL := ""; AddInput.Title := "some_title";
         AddInput.Tags := ["some_tag_1"; "some_tag_2"];
         AddInput.AccessToken := "access-to-ken" |} = Some err
    ∧ @Add stubPlatform stubClient context.Background
        {| AddInput.URL := ""; AddInput.Title := "some_title";
           AddInput.Tags := ["some_tag_1"; "some_tag_2"];
           AddInput.AccessToken := "access-to-ken" |} (stubState 200 ∅ "")
      = (Return (Some err), stubState 200 ∅ "").
Proof.
  apply (@C2_validation_without_request stubPlatform stubClient
           context.Background).
  left. reflexivity.
Defined.

Lemma C3_witness :
  @GetRequestToken stubPlatform stubClient context.Background
    "https://localhost" (stubState 200 ∅ "code=qwe-rty-123")
  = (Return ("qwe-rty-123", None),
     stubAnswered 200 ∅ "code=qwe-rty-123"
       (posted endpointRequestToken (requestTokenOf "https://localhost"))).
Proof.
  destruct (@C3_GetRequestToken_returns_code stubPlatform stubClient
              (newClient 200 ∅ "code=qwe-rty-123") context.Background
              "https://localhost" (stubState 200 ∅ "code=qwe-rty-123")
              (stubAnswered 200 ∅ "code=qwe-rty-123"
                 (posted endpointRequestToken
                    (requestTokenOf "https://localhost")))
              (stubResponse 200 ∅ "code=qwe-rty-123") "code=qwe-rty-123"
              {["code" := ["qwe-rty-123"]]})
    as (_ & _ & _ & Hexample).
  - discriminate.
  - reflexivity.
  - by apply stub_answered.
  - reflexivity.
  - reflexivity.
  - vm_compute. reflexivity.
  - apply Hexample. reflexivity.
Defined.

Lemma C4_witness :
  let err := errorsNew "API Error : Missing consumer key." in
  @GetRequestToken stubPlatform stubClient context.Background
    "https://localhost" (stubState 400 refusal "code=qwe-rty-123")
  = (Return ("", Some err),
     stubAnswered 400 refusal "code=qwe-rty-123"
       (posted endpointRequestToken (requestTokenOf "https://localhost")))
  ∧ @GetAccessToken stubPlatform stubClient context.Background
      "12345-qwerty" (stubState 400 refusal "code=qwe-rty-123")
    = (Return ("", Some err),
       stubAnswered 400 refusal "code=qwe-rty-123"
         (posted endpointAuthorize (accessTokenOf "12345-qwerty")))
  ∧ @Add stubPlatform stubClient context.Background someInput
      (stubState 400 refusal "code=qwe-rty-123")
    = (Return (Some err),
       stubAnswered 400 refusal "code=qwe-rty-123"
         (posted endpointAdd (addOf someInput))).
Proof.
  intros err.
  assert (Hstatus :
    http.StatusCode (stubResponse 400 refusal "code=qwe-rty-123") ≠ 200)
    by discriminate.
  split; [|split].
  - destruct (@C4_not_200_fails_with_X_Error stubPlatform stubClient
                (newClient 400 refusal "code=qwe-rty-123")
                context.Background
                (stubState 400 refusal "code=qwe-rty-123")
                (stubAnswered 400 refusal "code=qwe-rty-123"
                   (posted endpointRequestToken
                      (requestTokenOf "https://localhost")))
                (stubResponse 400 refusal "code=qwe-rty-123")
                Hstatus eq_refl) as (_ & Hcall & _).
    apply Hcall; [discriminate | by apply stub_answered].
  - destruct (@C4_not_200_fails_with_X_Error stubPlatform stubClient
                (newClient 400 refusal "code=qwe-rty-123")
                context.Background
                (stubState 400 refusal "code=qwe-rty-123")
                (stubAnswered 400 refusal "code=qwe-rty-123"
                   (posted endpointAuthorize (accessTokenOf "12345-qwerty")))
                (stubResponse 400 refusal "code=qwe-rty-123")
                Hstatus eq_refl) as (_ & _ & Hcall & _).
    apply Hcall; [discriminate | by apply stub_answered].
  - destruct (@C4_not_200_fails_with_X_Error stubPlatform stubClient
                (newClient 400 refusal "code=qwe-rty-123")
                context.Background
                (stubState 400 refusal "code=qwe-rty-123")
                (stubAnswered 400 refusal "code=qwe-rty-123"
                   (posted endpointAdd (addOf someInput)))
                (stubResponse 400 refusal "code=qwe-rty-123")
                Hstatus eq_refl) as (_ & _ & _ & Hcall & _).
    apply Hcall; [reflexivity | by apply stub_answered].
Defined.

Lemma C5_witness :
  @GetAuthorizationURL stubPlatform stubClient context.Background
    "abc" "https://localhost" (stubState 200 ∅ "")
  = (Return ("https://getpocket.com/auth/authorize?request_token=abc&redirect_uri=https://localhost",
             None), stubState 200 ∅ "").
Proof.
  apply (@C5_GetAuthorizationURL_template stubPlatform stubClient
           context.Background "abc" "https://localhost"); discriminate.
Defined.

Lemma C6_witness :
  @Add stubPlatform stubClient context.Background someInput
    (stubState 200 ∅ "access_token=qwe-rty-123&username=pocket")
  = (Return None,
     stubAnswered 200 ∅ "access_token=qwe-rty-123&username=pocket"
       (posted endpointAdd (addOf someInput))).
Proof.
  apply (@C6_Add_succeeds_on_parsed_200 stubPlatform stubClient
           (newClient 200 ∅ "access_token=qwe-rty-123&username=pocket")
           context.Background someInput _ _
           (stubResponse 200 ∅ "access_token=qwe-rty-123&username=pocket")
           "access_token=qwe-rty-123&username=pocket").
  - reflexivity.
  - reflexivity.
  - by apply stub_answered.
  - reflexivity.
  - reflexivity.
  - vm_compute. reflexivity.
Defined.

(** C6 as the specification words it fails on a body that is no query
    string: the input is valid and the answer has status 200, yet [Add]
    returns the error of [url.ParseQuery]. *)
Lemma C6_counterexample :
  AddInput.validate someInput = None
  ∧ @answered stubPlatform stubClient context.Background endpointAdd
      (addOf someInput) (stubState 200 ∅ "%") (stubResponse 200 ∅ "%")
      (stubAnswered 200 ∅ "%" (posted endpointAdd (addOf someInput)))
  ∧ http.StatusCode (stubResponse 200 ∅ "%") = 200
  ∧ @Add stubPlatform stubClient context.Background someInput
      (stubState 200 ∅ "%")
    = (Return (Some (errorsJoin (EscapeError "%")
                       (errorsNew "Failed to parse response values"))),
       stubAnswered 200 ∅ "%" (posted endpointAdd (addOf someInput))).
Proof.
  split; [reflexivity|]. split; [by apply stub_answered|].
  split; [reflexivity|]. reflexivity.
Qed.

Lemma C7_witness :
  ∃ r s',
    @Add stubPlatform stubClient context.Background
      {| AddInput.URL := "some_url.com"; AddInput.Title := "some_title";
         AddInput.Tags := ["a"; "b"];
         AddInput.AccessToken := "access-to-ken" |} (stubState 200 ∅ "")
    = (Return r, s')
    ∧ sent s' = [
        {| http.Method := "POST";
           http.URL := "https://getpocket.com/v3/add";
           http.ReqHeader :=
             {["Content-Type" := ["application/json; charset=UTF8"]]};
           http.ReqBody :=
             plainJSON
               (addBody {| addRequest.Url := "some_url.com";
                           addRequest.Title := "some_title";
                           addRequest.Tags := "a,b";
                           addRequest.TweetId := 0;
                           addRequest.ConsumerKey := "key";
                           addRequest.AccessToken := "access-to-ken" |});
           http.ctx := {| context.Done := false;
                          context.Deadline := None |} |}].
Proof.
  destruct (@C7_Add_wire_request stubPlatform) as (_ & _ & _ & Hsent).
  apply (Hsent stubClient (newClient 200 ∅ "") (stubHTTPClient 200 ∅ "")
           context.Background
           {| context.Done := false; context.Deadline := None |}
           {| AddInput.URL := "some_url.com"; AddInput.Title := "some_title";
              AddInput.Tags := ["a"; "b"];
              AddInput.AccessToken := "access-to-ken" |}
           (plainJSON
              (addBody {| addRequest.Url := "some_url.com";
                          addRequest.Title := "some_title";
                          addRequest.Tags := "a,b";
                          addRequest.TweetId := 0;
                          addRequest.ConsumerKey := "key";
                          addRequest.AccessToken := "access-to-ken" |}))
           (stubState 200 ∅ "")); reflexivity.
Defined.

Lemma C8_witness :
  @NewClient stubPlatform "key" (stubState 200 ∅ "")
  = (Return (Some 2%positive, None),
     @Build_State stubPlatform
       (<[2%positive :=
            {| client := Some {| http.Timeout := 5000000000;
                                 http.Transport := None |};
               consumerKey := "key" |}]> (clients (stubState 200 ∅ "")))
       [] 0%nat)
  ∧ @NewClient stubPlatform "" (stubState 200 ∅ "")
    = (Return (None, Some (errorsNew "Consumer key is empty")),
       stubState 200 ∅ "").
Proof.
  destruct (@C8_NewClient stubPlatform "key" (stubState 200 ∅ ""))
    as (_ & Hnew & _).
  destruct (@C8_NewClient stubPlatform "" (stubState 200 ∅ ""))
    as (Hempty & _).
  split; [|by apply Hempty].
  destruct Hnew as (Hfresh & Hrun); [discriminate|].
  rewrite Hrun. reflexivity.
Defined.

Lemma C10_witness :
  ∃ address,
    @GetAuthorizationURL stubPlatform stubClient context.Background
      "a&b=c d" "https://localhost/?x=1&y=%2F" (stubState 200 ∅ "")
    = (Return (address, None), stubState 200 ∅ "")
    ∧ String.length address = (65 + 7 + 28)%nat
    ∧ String.substring 51 7 address = "a&b=c d"
    ∧ String.substring (65 + 7) 28 address = "https://localhost/?x=1&y=%2F".
Proof.
  apply (@C10_GetAuthorizationURL_verbatim stubPlatform stubClient
           context.Background "a&b=c d" "https://localhost/?x=1&y=%2F");
    discriminate.
Defined.

(** * The further properties on the stub *)

Lemma with_answered (resp : http.Response) (endpoint : string) (b : body) :
  final resp = true →
  @answered stubPlatform stubClient context.Background endpoint b
    (stateWith (clientWith (fun _ n => (inl resp, S n)))) resp
    (exchangedWith (clientWith (fun _ n => (inl resp, S n)))
       (posted endpoint b)).
Proof.
  intros Hfinal.
  exists (clientWith (fun _ n => (inl resp, S n))), (plainJSON b).
  eexists. repeat split. unfold Do. simpl. unfold stubDo. simpl.
  by rewrite Hfinal.
Defined.

Lemma with_dropped (cause : error) (endpoint : string) (b : body) :
  @dropped stubPlatform stubClient context.Background endpoint b
    (stateWith (clientWith (fun _ n => (inr cause, S n))))
    (urlError "Post" ("https://getpocket.com/v3" +:+ endpoint) cause)
    (exchangedWith (clientWith (fun _ n => (inr cause, S n)))
       (posted endpoint b)).
Proof.
  exists (clientWith (fun _ n => (inr cause, S n))), (plainJSON b).
  eexists. repeat split.
Defined.

Lemma X1_witness :
  @GetAuthorizationURL stubPlatform stubClient context.Background "abc" ""
    (stubState 200 ∅ "")
  = (Return ("", Some (errorsNew "RedirectUrl is empty")), stubState 200 ∅ "").
Proof.
  apply (@X1_GetAuthorizationURL_refuses_empty stubPlatform stubClient
           context.Background "abc" ""). discriminate.
Defined.

Lemma X2_witness :
  @GetAuthorizationURL stubPlatform stubClient context.Background
    "abc&redirect_uri=https://a" "https://b" (stubState 200 ∅ "")
  = @GetAuthorizationURL stubPlatform stubClient context.Background
      "abc" "https://a&redirect_uri=https://b" (stubState 200 ∅ "").
Proof.
  apply (@X2_GetAuthorizationURL_ambiguous stubPlatform stubClient
           context.Background "abc" "https://a" "https://b");
    discriminate.
Defined.

Lemma X5_witness :
  (∃ r s',
     @GetRequestToken stubPlatform stubClient context.Background
       "https://localhost" (stubState 500 ∅ "") = (Return r, s'))
  ∧ (∃ r s',
       @GetAccessToken stubPlatform stubClient context.Background
         "12345-qwerty" (stubState 500 ∅ "") = (Return r, s'))
  ∧ (∃ r s',
       @Add stubPlatform stubClient context.Background someInput
         (stubState 500 ∅ "") = (Return r, s'))
  ∧ (∃ r s',
       @GetAuthorizationURL stubPlatform stubClient context.Background
         "12345-qwerty" "https://localhost" (stubState 500 ∅ "")
       = (Return r, s')).
Proof.
  apply (@X5_no_panic stubPlatform stubClient (newClient 500 ∅ "")).
  - reflexivity.
  - by eexists.
Defined.

Lemma X6_witness :
  @GetRequestToken stubPlatform None context.Background "https://localhost"
    (stubState 200 ∅ "code=qwe-rty-123")
  = (Panic nilDereference, stubState 200 ∅ "code=qwe-rty-123")
  ∧ @GetAccessToken stubPlatform None context.Background "12345-qwerty"
      (stubState 200 ∅ "code=qwe-rty-123")
    = (Panic nilDereference, stubState 200 ∅ "code=qwe-rty-123")
  ∧ @Add stubPlatform None context.Background someInput
      (stubState 200 ∅ "code=qwe-rty-123")
    = (Panic nilDereference, stubState 200 ∅ "code=qwe-rty-123").
Proof.
  destruct (@X6_nil_receiver_panics stubPlatform context.Background
              "https://localhost" "12345-qwerty" someInput
              (stubState 200 ∅ "code=qwe-rty-123"))
    as (Hrequest & Haccess & Hadd).
  split; [apply Hrequest; discriminate|].
  split; [apply Haccess; discriminate|]. apply Hadd. reflexivity.
Defined.

Lemma X7_witness :
  @doHTTP stubPlatform stubClient None endpointAdd (addOf someInput)
    (stubState 200 ∅ "")
  = (Return (∅, Some (errorsJoin (errorsNew "net/http: nil Context")
                        (errorsNew "Failed to create request"))),
     stubState 200 ∅ "")
  ∧ ∃ err,
      @GetRequestToken stubPlatform stubClient None "https://localhost"
        (stubState 200 ∅ "")
      = (Return ("", Some err), stubState 200 ∅ "").
Proof.
  destruct (@X7_nil_context_sends_nothing stubPlatform stubClient
              (newClient 200 ∅ "") endpointAdd (addOf someInput)
              "https://localhost" "12345-qwerty" someInput
              (stubState 200 ∅ "") eq_refl)
    as (Hexchange & Hrequest & _).
  split; [by eapply Hexchange|]. apply Hrequest. discriminate.
Defined.

Lemma X8_witness :
  @Add stubPlatform stubClient context.Background someInput
    (stateWith (clientWith offline))
  = (Return (Some (errorsJoin
                     (urlError "Post" "https://getpocket.com/v3/add"
                        refusedConnection)
                     (errorsNew "Failed to send http request..."))),
     exchangedWith (clientWith offline)
       (posted endpointAdd (addOf someInput))).
Proof.
  destruct (@X8_transport_error stubPlatform stubClient (clientWith offline)
              context.Background (stateWith (clientWith offline))
              (exchangedWith (clientWith offline)
                 (posted endpointAdd (addOf someInput)))
              (urlError "Post" "https://getpocket.com/v3/add"
                 refusedConnection) eq_refl)
    as (_ & _ & _ & Hadd).
  apply Hadd; [reflexivity | apply (with_dropped refusedConnection)].
Defined.

Lemma X9_witness :
  @GetRequestToken stubPlatform stubClient context.Background
    "https://localhost" (stateWith (clientWith breaking))
  = (Return ("", Some (errorsJoin unexpectedEOF
                         (errorsNew "Failed read response"))),
     exchangedWith (clientWith breaking)
       (posted endpointRequestToken (requestTokenOf "https://localhost"))).
Proof.
  destruct (@X9_unreadable_body stubPlatform stubClient
              (clientWith breaking) context.Background
              (stateWith (clientWith breaking))
              (exchangedWith (clientWith breaking)
                 (posted endpointRequestToken
                    (requestTokenOf "https://localhost")))
              brokenBody "code=qwe" unexpectedEOF eq_refl eq_refl eq_refl)
    as (_ & Hrequest & _).
  apply Hrequest; [discriminate | by apply with_answered].
Defined.

Lemma X10_witness :
  @GetRequestToken stubPlatform stubClient context.Background
    "https://localhost" (stubState 200 ∅ "code=qwe-rty-123&next=%")
  = (Return ("", Some (errorsJoin (EscapeError "%")
                         (errorsNew "Failed to parse response values"))),
     stubAnswered 200 ∅ "code=qwe-rty-123&next=%"
       (posted endpointRequestToken (requestTokenOf "https://localhost"))).
Proof.
  destruct (@X10_unparsable_body_loses_code stubPlatform stubClient
              (newClient 200 ∅ "code=qwe-rty-123&next=%")
              context.Background
              (stubState 200 ∅ "code=qwe-rty-123&next=%")
              (stubAnswered 200 ∅ "code=qwe-rty-123&next=%"
                 (posted endpointRequestToken
                    (requestTokenOf "https://localhost")))
              (stubResponse 200 ∅ "code=qwe-rty-123&next=%")
              "code=qwe-rty-123&next=%" {["code" := ["qwe-rty-123"]]}
              (EscapeError "%") eq_refl eq_refl eq_refl)
    as (Hrequest & _).
  - vm_compute. reflexivity.
  - apply Hrequest; [discriminate | by apply stub_answered].
Defined.

Lemma X11_witness :
  ∃ r s',
    @GetAccessToken stubPlatform stubClient context.Background
      "12345-qwerty" (stubState 200 ∅ "code=qwe-rty-123") = (Return r, s')
    ∧ sent s' = [posted endpointAuthorize (accessTokenOf "12345-qwerty")].
Proof.
  destruct (@X11_token_requests stubPlatform stubClient
              (newClient 200 ∅ "code=qwe-rty-123")
              (stubHTTPClient 200 ∅ "code=qwe-rty-123") context.Background
              {| context.Done := false; context.Deadline := None |}
              (stubState 200 ∅ "code=qwe-rty-123") eq_refl eq_refl eq_refl)
    as (_ & Haccess).
  apply (Haccess "12345-qwerty"
           (plainJSON (accessTokenOf "12345-qwerty")));
    [discriminate | reflexivity].
Defined.

Lemma X12_witness :
  ∃ c s1 r s2,
    @NewClient stubPlatform "key" emptyState = (Return (c, None), s1)
    ∧ @GetRequestToken stubPlatform c context.Background
        "https://localhost" s1 = (Return r, s2)
    ∧ sent s2
      = [posted endpointRequestToken (requestTokenOf "https://localhost")]
    ∧ world s2 = 1%nat.
Proof.
  apply (@X12_NewClient_then_GetRequestToken stubPlatform "key"
           "https://localhost"
           {| context.Done := false; context.Deadline := None |}
           (plainJSON (requestTokenOf "https://localhost")) emptyState);
    [discriminate | discriminate | reflexivity].
Defined.

Lemma X13_witness :
  ∃ l1 l2 (s1 s2 : @State stubPlatform),
    @NewClient stubPlatform "first" emptyState = (Return (Some l1, None), s1)
    ∧ @NewClient stubPlatform "second" s1 = (Return (Some l2, None), s2)
    ∧ l1 ≠ l2
    ∧ @consumerKey stubPlatform <$> clients s2 !! l1 = Some "first"
    ∧ @consumerKey stubPlatform <$> clients s2 !! l2 = Some "second"
    ∧ ∀ l (cl : @Client stubPlatform),
        clients emptyState !! l = Some cl → clients s2 !! l = Some cl.
Proof.
  apply (@X13_NewClient_twice stubPlatform "first" "second" emptyState);
    discriminate.
Defined.

Lemma X14_witness :
  strings.Split
    (addRequest.Tags (AddInput.generateRequest someInput "key")) ","
  = ["some_tag_1"; "some_tag_2"].
Proof.
  apply (X14_tags_round_trip someInput "key").
  - discriminate.
  - repeat constructor.
Defined.

Lemma X15_witness :
  @GetAccessToken stubPlatform stubClient context.Background "12345-qwerty"
    (stubState 200 ∅ "code=qwe-rty-123&code=other&username=pocket")
  = (Return ("qwe-rty-123", None),
     stubAnswered 200 ∅ "code=qwe-rty-123&code=other&username=pocket"
       (posted endpointAuthorize (accessTokenOf "12345-qwerty"))).
Proof.
  destruct (@X15_literal_token_returned stubPlatform stubClient
              (newClient 200 ∅ "code=qwe-rty-123&code=other&username=pocket")
              context.Background
              (stubState 200 ∅ "code=qwe-rty-123&code=other&username=pocket")
              (stubAnswered 200 ∅
                 "code=qwe-rty-123&code=other&username=pocket"
                 (posted endpointAuthorize (accessTokenOf "12345-qwerty")))
              (stubResponse 200 ∅
                 "code=qwe-rty-123&code=other&username=pocket")
              "code=qwe-rty-123&code=other&username=pocket" "qwe-rty-123")
    as (_ & Haccess).
  - discriminate.
  - reflexivity.
  - reflexivity.
  - reflexivity.
  - reflexivity.
  - right. exists "code=other&username=pocket". split; [reflexivity|].
    vm_compute. reflexivity.
  - apply Haccess; [discriminate | by apply stub_answered].
Defined.
